(** * Blackbody - Planckian radiator

    A shallow embedding of [colour/colorimetry/blackbody.py]: the constants
    [C1], [C2], [N], the function [planck_law], its alias
    [blackbody_spectral_radiance] and [sd_blackbody]; and of the table
    [ACES_RICD_DATA] of [colour/models/dataset/aces_rgb_idt.py].

    The Python code computes on binary64 numbers through NumPy.  The embedding
    keeps that: numbers are Rocq's primitive binary64 floats, a Python value
    is an int, a float or a float64 array, operations on Python scalars can
    raise (as CPython's do) and operations on arrays follow NumPy (they
    broadcast, and under NumPy's default error state they return [inf] or
    [nan] where the scalar operation would raise).  The C library functions
    behind [np.exp] and [**] are an interface, [Libm], of which only a few
    facts that hold on every platform are assumed.

    The value of [planck_law] at 500 nm and 5500 K is settled for every C
    library that is accurate there; [F2R] is the real number a float stands
    for, and the accuracy of the library is stated with it. *)

From Stdlib Require Import ZArith Floats List String Bool Lia.
From Stdlib Require Import DecimalString Sorted.
From Stdlib Require Import Reals Lra Factorial.
Import ListNotations.

Set Warnings "-inexact-float".

#[local] Open Scope float_scope.

(** * Definitions *)

(** ** Exceptions

    The exceptions of Python that the module raises.  [Unmodelled] is not one
    of them: it is where the embedding stops, at the operations of NumPy on
    arrays of Python objects, which it does not follow. *)

Inductive exn : Set :=
| ZeroDivisionError
| OverflowError
| ValueError
| TypeError
| Unmodelled.

Inductive result (A : Type) : Type :=
| Ok (a : A)
| Raise (e : exn).

Arguments Ok {A} a.
Arguments Raise {A} e.

Definition bind {A B : Type} (r : result A) (k : A -> result B) : result B :=
  match r with
  | Ok a => k a
  | Raise e => Raise e
  end.

Notation "x <- r ;; k" := (bind r (fun x => k))
  (at level 61, r at next level, right associativity).

Definition fmap {A B : Type} (f : A -> B) (r : result A) : result B :=
  x <- r ;; Ok (f x).

(** ** The C mathematical library

    [np.exp] is the C function [exp] and [**] is [pow], on each element
    (NumPy may take the reciprocal for [x ** -1]). Their values are the
    platform's; the fields below are the part of their behaviour that C99
    (Annex F.9) fixes, or that holds of every implementation that rounds the
    real function faithfully, and of the reciprocal as well. *)

(** [sign_clear x]: the sign bit of [x] is clear, or [x] is a NaN: [x] is
    [+0], a positive number, [+inf] or NaN. *)
Definition SFsign_clear (x : spec_float) : bool :=
  match x with
  | S754_zero s | S754_infinity s | S754_finite s _ _ => negb s
  | S754_nan => true
  end.

Definition sign_clear (x : float) : bool := SFsign_clear (Prim2SF x).

Record Libm : Type := {
  c_exp : float -> float;
  c_pow : float -> float -> float;
  (** exp(NaN) is NaN *)
  c_exp_nan : c_exp nan = nan;
  (** exp overflows above 709.78...; exp(+inf) = +inf *)
  c_exp_overflow : forall x, (710 <=? x) = true -> c_exp x = infinity;
  (** exp(x) >= 1 for x >= 0 *)
  c_exp_ge_1 : forall x, (0 <=? x) = true -> (1 <=? c_exp x) = true;
  (** pow(x, y) is never negative for x = +0, x > 0 or x = +inf *)
  c_pow_sign : forall x y, sign_clear x = true -> sign_clear (c_pow x y) = true;
  (** pow(+inf, y) = +0 for y < 0 *)
  c_pow_inf_neg : forall y, (y <? 0) = true -> c_pow infinity y = 0
}.

(** ** Python values *)

(** A float64 array: 0-dimensional ([np.float64] scalars behave the same) or
    1-dimensional. *)
Inductive ndarray : Type :=
| Arr0 (x : float)
| Arr1 (xs : list float).

Inductive pyobj : Type :=
| PyInt (z : Z)
| PyFloat (x : float)
| PyArr (a : ndarray).

(** [float(z)] for a Python int: the nearest binary64, [OverflowError] when
    there is none. *)
Definition SF_of_Z (z : Z) : spec_float := binary_normalize prec emax z 0 false.

Definition float_of_int (z : Z) : result float :=
  match SF_of_Z z with
  | S754_infinity _ => Raise OverflowError
  | f => Ok (SF2Prim f)
  end.

(** The operand of a Python scalar operation, as a C double. *)
Definition py_float (v : pyobj) : result float :=
  match v with
  | PyInt z => float_of_int z
  | PyFloat x => Ok x
  | PyArr _ => Raise TypeError
  end.

(** *** Arrays *)

Definition elems (a : ndarray) : list float :=
  match a with
  | Arr0 x => [x]
  | Arr1 xs => xs
  end.

Definition np_map (f : float -> float) (a : ndarray) : ndarray :=
  match a with
  | Arr0 x => Arr0 (f x)
  | Arr1 xs => Arr1 (map f xs)
  end.

Fixpoint map2 {A B C : Type} (f : A -> B -> C) (xs : list A) (ys : list B) : list C :=
  match xs, ys with
  | x :: xs', y :: ys' => f x y :: map2 f xs' ys'
  | _, _ => []
  end.

(** NumPy's broadcasting of two arrays of at most one dimension: equal
    lengths go elementwise, a length of one is stretched, anything else is
    "operands could not be broadcast together". *)
Definition broadcast (f : float -> float -> float) (xs ys : list float)
  : result (list float) :=
  if (List.length xs =? List.length ys)%nat then Ok (map2 f xs ys)
  else match xs, ys with
       | [x], _ => Ok (map (f x) ys)
       | _, [y] => Ok (map (fun x => f x y) xs)
       | _, _ => Raise ValueError
       end.

Definition np_binop (f : float -> float -> float) (a b : ndarray) : result ndarray :=
  match a, b with
  | Arr0 x, Arr0 y => Ok (Arr0 (f x y))
  | _, _ => fmap Arr1 (broadcast f (elems a) (elems b))
  end.

(** A Python scalar met by an array operand becomes a float64 scalar: a
    float as it is, an int of the range of [int64] or [uint64] rounded to
    the nearest float.  Of an int outside that range NumPy makes an array of
    Python objects, and the operation is Python's on each element; the
    embedding has no such arrays and stops there. *)
Definition np_coerce (v : pyobj) : result ndarray :=
  match v with
  | PyInt z =>
      if ((- 2 ^ 63 <=? z) && (z <? 2 ^ 64))%Z
      then Ok (Arr0 (SF2Prim (SF_of_Z z)))
      else Raise Unmodelled
  | PyFloat x => Ok (Arr0 x)
  | PyArr a => Ok a
  end.

(** Modelled from the spec: [as_float_array] of [colour.utilities] is not
    part of the sources at hand. By its name and the spec (4.1, 9) it makes
    an array of floats of its argument, a scalar becoming the
    0-dimensional case: [np.asarray(a, np.float64)]. *)
Definition as_float_array (a : pyobj) : result ndarray :=
  match a with
  | PyInt z => fmap Arr0 (float_of_int z)
  | PyFloat x => Ok (Arr0 x)
  | PyArr a => Ok a
  end.

(** *** Arithmetic operators *)

(** The shape of every binary operator: NumPy's when an operand is an
    array, the int operation on two ints, the C double operation
    otherwise. *)
Definition binop
    (on_int : Z -> Z -> result pyobj)
    (on_float : float -> float -> result float)
    (on_array : float -> float -> float)
    (a b : pyobj) : result pyobj :=
  match a, b with
  | PyInt x, PyInt y => on_int x y
  | PyArr _, _ | _, PyArr _ =>
      x <- np_coerce a ;; y <- np_coerce b ;; fmap PyArr (np_binop on_array x y)
  | _, _ =>
      x <- py_float a ;; y <- py_float b ;; fmap PyFloat (on_float x y)
  end.

Definition py_mul : pyobj -> pyobj -> result pyobj :=
  binop (fun x y => Ok (PyInt (x * y))) (fun x y => Ok (x * y)) mul.

Definition py_sub : pyobj -> pyobj -> result pyobj :=
  binop (fun x y => Ok (PyInt (x - y))) (fun x y => Ok (x - y)) sub.

(** [/] is true division ([from __future__ import division]): on two ints
    the correctly rounded quotient, on a zero divisor
    [ZeroDivisionError]. *)
Definition SF_exact (z : Z) : spec_float :=
  match z with
  | Z0 => S754_zero false
  | Zpos p => S754_finite false p 0
  | Zneg p => S754_finite true p 0
  end.

Definition int_truediv (x y : Z) : result pyobj :=
  if (y =? 0)%Z then Raise ZeroDivisionError
  else match SFdiv prec emax (SF_exact x) (SF_exact y) with
       | S754_infinity _ => Raise OverflowError
       | q => Ok (PyFloat (SF2Prim q))
       end.

Definition float_truediv (x y : float) : result float :=
  if y =? 0 then Raise ZeroDivisionError else Ok (x / y).

Definition py_truediv : pyobj -> pyobj -> result pyobj :=
  binop int_truediv float_truediv div.

(** [DOUBLE_IS_ODD_INTEGER] of CPython's floatobject.c. *)
Definition is_odd_integer (x : float) : bool :=
  match Prim2SF x with
  | S754_finite _ m e =>
      match e with
      | Z0 => Z.odd (Zpos m)
      | Zneg d => (Z.land (Zpos m) (Z.ones (Zpos d)) =? 0)%Z && Z.testbit (Zpos m) (Zpos d)
      | Zpos _ => false
      end
  | _ => false
  end.

Section Operators.

Context (M : Libm).

(** [float_pow] of CPython's floatobject.c, for an exponent [iw] that is the
    double of a Python int (it is neither a NaN nor infinite, and never
    fractional): the special cases are sorted out before [pow] is called,
    zero to a negative power is [ZeroDivisionError] and an overflow is
    [OverflowError]. *)
Definition float_pow (iv iw : float) : result float :=
  if iw =? 0 then Ok 1
  else if is_nan iv then Ok iv
  else if is_infinity iv then
    if 0 <? iw then Ok (if is_odd_integer iw then iv else abs iv)
    else Ok (if is_odd_integer iw then (if get_sign iv then neg_zero else 0) else 0)
  else if iv =? 0 then
    if iw <? 0 then Raise ZeroDivisionError
    else Ok (if is_odd_integer iw then iv else 0)
  else
    let negate_result := (iv <? 0) && is_odd_integer iw in
    let iv := if iv <? 0 then - iv else iv in
    if iv =? 1 then Ok (if negate_result then -1 else 1)
    else
      let ix := c_pow M iv iw in
      if is_infinity ix then Raise OverflowError
      else Ok (if negate_result then - ix else ix).

(** [x ** k] for a Python int [k], as every [**] of the module has: an int
    to a negative power is computed on doubles. *)
Definition py_pow (x : pyobj) (k : Z) : result pyobj :=
  match x with
  | PyInt b =>
      if (0 <=? k)%Z then Ok (PyInt (b ^ k))
      else iv <- float_of_int b ;; iw <- float_of_int k ;;
           fmap PyFloat (float_pow iv iw)
  | PyFloat iv =>
      iw <- float_of_int k ;; fmap PyFloat (float_pow iv iw)
  | PyArr a =>
      e <- np_coerce (PyInt k) ;;
      fmap PyArr (np_binop (c_pow M) a e)
  end.

(** [np.exp] *)
Definition np_exp (x : pyobj) : result pyobj :=
  a <- np_coerce x ;; Ok (PyArr (np_map (c_exp M) a)).

(** *** Expressions

    Python evaluates the left operand, then the right one, then applies the
    operator. *)
Definition lift1 (op : pyobj -> result pyobj) (a : result pyobj) : result pyobj :=
  x <- a ;; op x.

Definition lift2 (op : pyobj -> pyobj -> result pyobj) (a b : result pyobj)
  : result pyobj :=
  x <- a ;; y <- b ;; op x y.

End Operators.

(** [np.pi] *)
Definition np_pi : float := 0x1.921fb54442d18p+1.

Declare Scope py_scope.
Delimit Scope py_scope with py.

Notation "a * b" := (lift2 py_mul a b) : py_scope.
Notation "a / b" := (lift2 py_truediv a b) : py_scope.
Notation "a - b" := (lift2 py_sub a b) : py_scope.
Notation "'!' x" := (Ok x) (at level 9, x at level 0) : py_scope.

(** ** The module *)

Definition C1 : float := 3.741771e-16.
Definition C2 : float := 1.4388e-2.
Definition N : Z := 1.

Section Blackbody.

Context (M : Libm).

#[local] Notation "a ** k" := (lift1 (fun x => py_pow M x k) a)
  (at level 30, right associativity) : py_scope.
#[local] Notation "'np.exp' a" := (lift1 (np_exp M) a)
  (at level 9, a at level 0) : py_scope.

(** [planck_law(wavelength, temperature, c1=C1, c2=C2, n=N)] *)
Definition planck_law (wavelength temperature c1 c2 n : pyobj) : result pyobj :=
  l <- fmap PyArr (as_float_array wavelength) ;;
  t <- fmap PyArr (as_float_array temperature) ;;
  let p := (((!c1 * !n ** (-2) * !l ** (-5)) / !(PyFloat np_pi))
            * (np.exp (!c2 / (!n * !l * !t)) - !(PyInt 1)) ** (-1))%py in
  p.

(** [blackbody_spectral_radiance = planck_law] *)
Definition blackbody_spectral_radiance := planck_law.

End Blackbody.

(** *** Spectral distributions *)

(** A Python [dict] keyed by floats, in insertion order: a key that
    compares equal to one already present has its value replaced. *)
Definition dict := list (float * float).

Fixpoint dict_set (d : dict) (k v : float) : dict :=
  match d with
  | [] => [(k, v)]
  | (k', v') :: d' => if k' =? k then (k', v) :: d' else (k', v') :: dict_set d' k v
  end.

Definition dict_of_pairs (kvs : list (float * float)) : dict :=
  fold_left (fun d kv => dict_set d (fst kv) (snd kv)) kvs [].

Fixpoint dict_get (d : dict) (k : float) : option float :=
  match d with
  | [] => None
  | (k', v') :: d' => if k' =? k then Some v' else dict_get d' k
  end.

Inductive interpolator : Set := SpragueInterpolator | CubicSplineInterpolator.
Inductive extrapolator : Set := Extrapolator.

(** Modelled from the spec: the class [SpectralDistribution] of
    [colour.colorimetry] is not part of the sources at hand. The spec (3,
    4.2) has a spectral distribution as a mapping from wavelength to a
    value, with a display name, an interpolation strategy (Sprague-style by
    default) and an extrapolation strategy; constructing one has no effect
    besides. *)
Record SpectralDistribution : Type := {
  sd_data : dict;
  sd_name : string;
  sd_interpolator : interpolator;
  sd_extrapolator : extrapolator
}.

Definition SpectralDistribution_init (data : dict) (name : string)
  : SpectralDistribution :=
  {| sd_data := data; sd_name := name;
     sd_interpolator := SpragueInterpolator; sd_extrapolator := Extrapolator |}.

(** [zip(a, b)] of two arrays; a 0-dimensional array cannot be iterated. *)
Definition py_zip (a b : pyobj) : result (list (float * float)) :=
  match a, b with
  | PyArr (Arr1 xs), PyArr (Arr1 ys) => Ok (combine xs ys)
  | _, _ => Raise TypeError
  end.

Section Distribution.

Context (M : Libm).

(** The class [SpectralShape] is not part of the sources either: a shape is
    any value with a [range()] of wavelengths, a 1-dimensional array. *)
Context {SpectralShape : Type} (range : SpectralShape -> list float).

(** [str] of a float and of an array are the platform's. *)
Context (float_str : float -> string) (array_str : ndarray -> string).

(** ['{0}'.format(v)] *)
Definition py_format (v : pyobj) : string :=
  match v with
  | PyInt z => NilEmpty.string_of_int (Z.to_int z)
  | PyFloat x => float_str x
  | PyArr a => array_str a
  end.

(** [sd_blackbody(temperature, shape=DEFAULT_SPECTRAL_SHAPE, c1=C1, c2=C2,
    n=N)] *)
Definition sd_blackbody (temperature : pyobj) (shape : SpectralShape)
    (c1 c2 n : pyobj) : result SpectralDistribution :=
  let wavelengths := PyArr (Arr1 (range shape)) in
  w <- py_mul wavelengths (PyFloat 1e-9) ;;
  p <- planck_law M w temperature c1 c2 n ;;
  z <- py_zip wavelengths p ;;
  Ok (SpectralDistribution_init
        (dict_of_pairs z)
        (py_format temperature ++ "K Blackbody")).

End Distribution.

(** ** The ACES dataset

    [ACES_RICD_DATA] of [colour.models.dataset.aces_rgb_idt]: for each of
    the three channels, the items of its dict literal in the order they are
    written, wavelength (nm) and sensitivity. *)

(** ['r_bar'], lines 39 to 510. *)
Definition ACES_RICD_DATA_r_bar : list (float * float) := [
  (360.0, 1.2e-06); (361.0, 1.4e-06); (362.0, 1.5e-06); (363.0, 1.7e-06);
  (364.0, 1.9e-06); (365.0, 2.2e-06); (366.0, 2.4e-06); (367.0, 2.7e-06);
  (368.0, 3.1e-06); (369.0, 3.5e-06); (370.0, 3.9e-06); (371.0, 4.3e-06);
  (372.0, 4.9e-06); (373.0, 5.4e-06); (374.0, 6.1e-06); (375.0, 6.9e-06);
  (376.0, 7.9e-06); (377.0, 9e-06); (378.0, 1.02e-05); (379.0, 1.15e-05);
  (380.0, 1.28e-05); (381.0, 1.41e-05); (382.0, 1.54e-05); (383.0, 1.69e-05);
  (384.0, 1.87e-05); (385.0, 2.09e-05); (386.0, 2.37e-05); (387.0, 2.71e-05);
  (388.0, 3.09e-05); (389.0, 3.51e-05); (390.0, 3.97e-05); (391.0, 4.45e-05);
  (392.0, 4.99e-05); (393.0, 5.59e-05); (394.0, 6.31e-05); (395.0, 7.16e-05);
  (396.0, 8.19e-05); (397.0, 9.38e-05); (398.0, 0.0001068); (399.0, 0.0001204);
  (400.0, 0.0001339); (401.0, 0.0001469); (402.0, 0.0001604); (403.0, 0.0001757);
  (404.0, 0.0001941); (405.0, 0.0002169); (406.0, 0.0002452); (407.0, 0.0002786);
  (408.0, 0.0003169); (409.0, 0.0003598); (410.0, 0.000407); (411.0, 0.0004583);
  (412.0, 0.0005147); (413.0, 0.0005773); (414.0, 0.0006474); (415.0, 0.0007262);
  (416.0, 0.0008134); (417.0, 0.000909); (418.0, 0.0010141); (419.0, 0.0011297);
  (420.0, 0.001257); (421.0, 0.0013971); (422.0, 0.0015472); (423.0, 0.0017023);
  (424.0, 0.0018579); (425.0, 0.002009); (426.0, 0.0021532); (427.0, 0.0022907);
  (428.0, 0.0024207); (429.0, 0.0025425); (430.0, 0.0026557); (431.0, 0.002759);
  (432.0, 0.0028521); (433.0, 0.0029352); (434.0, 0.0030087); (435.0, 0.0030728);
  (436.0, 0.0031276); (437.0, 0.003173); (438.0, 0.0032096); (439.0, 0.0032377);
  (440.0, 0.0032578); (441.0, 0.0032702); (442.0, 0.0032753); (443.0, 0.003274);
  (444.0, 0.0032672); (445.0, 0.0032557); (446.0, 0.00324); (447.0, 0.0032202);
  (448.0, 0.0031972); (449.0, 0.0031718); (450.0, 0.0031448); (451.0, 0.0031167);
  (452.0, 0.0030871); (453.0, 0.0030553); (454.0, 0.0030202); (455.0, 0.002981);
  (456.0, 0.0029373); (457.0, 0.0028892); (458.0, 0.0028368); (459.0, 0.0027804);
  (460.0, 0.00272); (461.0, 0.0026561); (462.0, 0.0025883); (463.0, 0.0025153);
  (464.0, 0.0024358); (465.0, 0.0023486); (466.0, 0.0022527); (467.0, 0.0021498);
  (468.0, 0.0020427); (469.0, 0.0019343); (470.0, 0.0018271); (471.0, 0.0017229);
  (472.0, 0.001621); (473.0, 0.0015215); (474.0, 0.0014242); (475.0, 0.0013289);
  (476.0, 0.0012361); (477.0, 0.0011462); (478.0, 0.0010593); (479.0, 0.0009753);
  (480.0, 0.0008943); (481.0, 0.0008163); (482.0, 0.0007416); (483.0, 0.0006706);
  (484.0, 0.0006038); (485.0, 0.0005418); (486.0, 0.0004848); (487.0, 0.0004326);
  (488.0, 0.0003847); (489.0, 0.0003403); (490.0, 0.0002992); (491.0, 0.0002609);
  (492.0, 0.0002256); (493.0, 0.0001933); (494.0, 0.0001638); (495.0, 0.0001373);
  (496.0, 0.0001135); (497.0, 9.26e-05); (498.0, 7.43e-05); (499.0, 5.87e-05);
  (500.0, 4.56e-05); (501.0, 3.51e-05); (502.0, 2.73e-05); (503.0, 2.25e-05);
  (504.0, 2.07e-05); (505.0, 2.23e-05); (506.0, 2.72e-05); (507.0, 3.57e-05);
  (508.0, 4.83e-05); (509.0, 6.52e-05); (510.0, 8.69e-05); (511.0, 0.0001136);
  (512.0, 0.0001453); (513.0, 0.0001822); (514.0, 0.0002244); (515.0, 0.0002722);
  (516.0, 0.0003257); (517.0, 0.0003847); (518.0, 0.000449); (519.0, 0.0005182);
  (520.0, 0.000592); (521.0, 0.0006703); (522.0, 0.0007529); (523.0, 0.0008398);
  (524.0, 0.0009307); (525.0, 0.0010256); (526.0, 0.0011245); (527.0, 0.001227);
  (528.0, 0.0013323); (529.0, 0.0014398); (530.0, 0.0015488); (531.0, 0.0016588);
  (532.0, 0.00177); (533.0, 0.0018826); (534.0, 0.0019967); (535.0, 0.0021126);
  (536.0, 0.0022303); (537.0, 0.0023496); (538.0, 0.0024705); (539.0, 0.0025932);
  (540.0, 0.0027177); (541.0, 0.0028439); (542.0, 0.002972); (543.0, 0.0031017);
  (544.0, 0.0032332); (545.0, 0.0033662); (546.0, 0.0035008); (547.0, 0.003637);
  (548.0, 0.003775); (549.0, 0.0039147); (550.0, 0.0040564); (551.0, 0.0042);
  (552.0, 0.0043454); (553.0, 0.0044926); (554.0, 0.0046415); (555.0, 0.004792);
  (556.0, 0.004944); (557.0, 0.0050975); (558.0, 0.005252); (559.0, 0.0054075);
  (560.0, 0.0055636); (561.0, 0.0057201); (562.0, 0.0058769); (563.0, 0.0060339);
  (564.0, 0.0061913); (565.0, 0.0063488); (566.0, 0.0065063); (567.0, 0.0066637);
  (568.0, 0.0068207); (569.0, 0.0069769); (570.0, 0.0071321); (571.0, 0.0072859);
  (572.0, 0.0074383); (573.0, 0.007589); (574.0, 0.0077378); (575.0, 0.0078845);
  (576.0, 0.0080289); (577.0, 0.0081707); (578.0, 0.0083093); (579.0, 0.0084443);
  (580.0, 0.0085751); (581.0, 0.0087015); (582.0, 0.0088231); (583.0, 0.0089399);
  (584.0, 0.0090516); (585.0, 0.0091582); (586.0, 0.0092591); (587.0, 0.0093542);
  (588.0, 0.0094435); (589.0, 0.0095269); (590.0, 0.0096046); (591.0, 0.0096765);
  (592.0, 0.009742); (593.0, 0.0098); (594.0, 0.0098494); (595.0, 0.0098891);
  (596.0, 0.009918); (597.0, 0.0099368); (598.0, 0.0099462); (599.0, 0.0099472);
  (600.0, 0.0099405); (601.0, 0.0099268); (602.0, 0.0099054); (603.0, 0.0098752);
  (604.0, 0.0098355); (605.0, 0.0097852); (606.0, 0.0097238); (607.0, 0.0096519);
  (608.0, 0.0095705); (609.0, 0.0094805); (610.0, 0.0093828); (611.0, 0.0092776);
  (612.0, 0.009165); (613.0, 0.0090448); (614.0, 0.0089172); (615.0, 0.0087819);
  (616.0, 0.0086396); (617.0, 0.0084904); (618.0, 0.0083337); (619.0, 0.0081692);
  (620.0, 0.0079963); (621.0, 0.0078151); (622.0, 0.0076266); (623.0, 0.0074323);
  (624.0, 0.0072336); (625.0, 0.0070319); (626.0, 0.0068278); (627.0, 0.0066219);
  (628.0, 0.0064162); (629.0, 0.0062122); (630.0, 0.0060119); (631.0, 0.0058164);
  (632.0, 0.0056255); (633.0, 0.0054382); (634.0, 0.0052538); (635.0, 0.0050713);
  (636.0, 0.0048907); (637.0, 0.0047124); (638.0, 0.0045364); (639.0, 0.0043628);
  (640.0, 0.0041916); (641.0, 0.0040228); (642.0, 0.0038566); (643.0, 0.0036932);
  (644.0, 0.0035331); (645.0, 0.0033765); (646.0, 0.0032236); (647.0, 0.0030744);
  (648.0, 0.0029294); (649.0, 0.0027888); (650.0, 0.0026531); (651.0, 0.0025225);
  (652.0, 0.0023969); (653.0, 0.0022759); (654.0, 0.0021592); (655.0, 0.0020467);
  (656.0, 0.0019381); (657.0, 0.0018335); (658.0, 0.0017329); (659.0, 0.0016362);
  (660.0, 0.0015432); (661.0, 0.001454); (662.0, 0.0013685); (663.0, 0.0012867);
  (664.0, 0.0012086); (665.0, 0.0011342); (666.0, 0.0010635); (667.0, 0.0009963);
  (668.0, 0.0009329); (669.0, 0.0008734); (670.0, 0.0008179); (671.0, 0.0007665);
  (672.0, 0.0007188); (673.0, 0.0006745); (674.0, 0.0006334); (675.0, 0.0005952);
  (676.0, 0.0005597); (677.0, 0.0005267); (678.0, 0.0004957); (679.0, 0.0004662);
  (680.0, 0.0004377); (681.0, 0.0004097); (682.0, 0.0003825); (683.0, 0.0003563);
  (684.0, 0.0003313); (685.0, 0.0003079); (686.0, 0.000286); (687.0, 0.0002656);
  (688.0, 0.0002465); (689.0, 0.0002288); (690.0, 0.0002124); (691.0, 0.0001973);
  (692.0, 0.0001834); (693.0, 0.0001707); (694.0, 0.000159); (695.0, 0.0001482);
  (696.0, 0.0001384); (697.0, 0.0001294); (698.0, 0.0001212); (699.0, 0.0001135);
  (700.0, 0.0001063); (701.0, 9.95e-05); (702.0, 9.3e-05); (703.0, 8.69e-05);
  (704.0, 8.12e-05); (705.0, 7.59e-05); (706.0, 7.1e-05); (707.0, 6.63e-05);
  (708.0, 6.2e-05); (709.0, 5.8e-05); (710.0, 5.42e-05); (711.0, 5.06e-05);
  (712.0, 4.73e-05); (713.0, 4.41e-05); (714.0, 4.12e-05); (715.0, 3.85e-05);
  (716.0, 3.59e-05); (717.0, 3.35e-05); (718.0, 3.12e-05); (719.0, 2.91e-05);
  (720.0, 2.71e-05); (721.0, 2.53e-05); (722.0, 2.36e-05); (723.0, 2.2e-05);
  (724.0, 2.06e-05); (725.0, 1.92e-05); (726.0, 1.79e-05); (727.0, 1.67e-05);
  (728.0, 1.55e-05); (729.0, 1.45e-05); (730.0, 1.35e-05); (731.0, 1.25e-05);
  (732.0, 1.17e-05); (733.0, 1.08e-05); (734.0, 1.01e-05); (735.0, 9.4e-06);
  (736.0, 8.7e-06); (737.0, 8.1e-06); (738.0, 7.5e-06); (739.0, 7e-06);
  (740.0, 6.5e-06); (741.0, 6e-06); (742.0, 5.6e-06); (743.0, 5.2e-06);
  (744.0, 4.8e-06); (745.0, 4.5e-06); (746.0, 4.1e-06); (747.0, 3.9e-06);
  (748.0, 3.6e-06); (749.0, 3.3e-06); (750.0, 3.1e-06); (751.0, 2.9e-06);
  (752.0, 2.7e-06); (753.0, 2.5e-06); (754.0, 2.4e-06); (755.0, 2.2e-06);
  (756.0, 2.1e-06); (757.0, 1.9e-06); (758.0, 1.8e-06); (759.0, 1.7e-06);
  (760.0, 1.6e-06); (761.0, 1.5e-06); (762.0, 1.4e-06); (763.0, 1.3e-06);
  (764.0, 1.2e-06); (765.0, 1.1e-06); (766.0, 1e-06); (767.0, 1e-06);
  (768.0, 9e-07); (769.0, 8e-07); (770.0, 8e-07); (771.0, 7e-07);
  (772.0, 7e-07); (773.0, 6e-07); (774.0, 6e-07); (775.0, 5e-07);
  (776.0, 5e-07); (777.0, 5e-07); (778.0, 4e-07); (779.0, 4e-07);
  (780.0, 4e-07); (781.0, 4e-07); (782.0, 3e-07); (783.0, 3e-07);
  (784.0, 3e-07); (785.0, 3e-07); (786.0, 3e-07); (787.0, 2e-07);
  (788.0, 2e-07); (789.0, 2e-07); (790.0, 2e-07); (791.0, 2e-07);
  (792.0, 2e-07); (793.0, 2e-07); (794.0, 1e-07); (795.0, 1e-07);
  (796.0, 1e-07); (797.0, 1e-07); (798.0, 1e-07); (799.0, 1e-07);
  (800.0, 1e-07); (801.0, 1e-07); (802.0, 1e-07); (803.0, 1e-07);
  (804.0, 1e-07); (805.0, 1e-07); (806.0, 1e-07); (807.0, 1e-07);
  (808.0, 1e-07); (809.0, 1e-07); (810.0, 0.0); (811.0, 0.0);
  (812.0, 0.0); (813.0, 0.0); (814.0, 0.0); (815.0, 0.0);
  (816.0, 0.0); (817.0, 0.0); (818.0, 0.0); (819.0, 0.0);
  (820.0, 0.0); (821.0, 0.0); (822.0, 0.0); (823.0, 0.0);
  (824.0, 0.0); (825.0, 0.0); (826.0, 0.0); (827.0, 0.0);
  (828.0, 0.0); (829.0, 0.0); (830.0, 0.0)].

(** ['g_bar'], lines 511 to 982. *)
Definition ACES_RICD_DATA_g_bar : list (float * float) := [
  (360.0, 0.0); (361.0, 0.0); (362.0, 0.0); (363.0, 0.0);
  (364.0, 0.0); (365.0, 0.0); (366.0, 0.0); (367.0, 0.0);
  (368.0, 0.0); (369.0, 0.0); (370.0, 0.0); (371.0, 0.0);
  (372.0, 0.0); (373.0, 0.0); (374.0, 0.0); (375.0, 0.0);
  (376.0, 1e-07); (377.0, 1e-07); (378.0, 1e-07); (379.0, 1e-07);
  (380.0, 1e-07); (381.0, 1e-07); (382.0, 1e-07); (383.0, 1e-07);
  (384.0, 1e-07); (385.0, 1e-07); (386.0, 2e-07); (387.0, 2e-07);
  (388.0, 2e-07); (389.0, 3e-07); (390.0, 3e-07); (391.0, 3e-07);
  (392.0, 4e-07); (393.0, 5e-07); (394.0, 5e-07); (395.0, 6e-07);
  (396.0, 7e-07); (397.0, 8e-07); (398.0, 9e-07); (399.0, 1e-06);
  (400.0, 1.1e-06); (401.0, 1.2e-06); (402.0, 1.3e-06); (403.0, 1.5e-06);
  (404.0, 1.7e-06); (405.0, 2e-06); (406.0, 2.3e-06); (407.0, 2.7e-06);
  (408.0, 3.2e-06); (409.0, 3.8e-06); (410.0, 4.4e-06); (411.0, 5.1e-06);
  (412.0, 5.9e-06); (413.0, 6.9e-06); (414.0, 8e-06); (415.0, 9.3e-06);
  (416.0, 1.09e-05); (417.0, 1.28e-05); (418.0, 1.51e-05); (419.0, 1.81e-05);
  (420.0, 2.18e-05); (421.0, 2.65e-05); (422.0, 3.2e-05); (423.0, 3.84e-05);
  (424.0, 4.56e-05); (425.0, 5.37e-05); (426.0, 6.26e-05); (427.0, 7.25e-05);
  (428.0, 8.33e-05); (429.0, 9.51e-05); (430.0, 0.0001081); (431.0, 0.0001221);
  (432.0, 0.0001372); (433.0, 0.0001534); (434.0, 0.0001705); (435.0, 0.0001886);
  (436.0, 0.0002077); (437.0, 0.0002277); (438.0, 0.0002486); (439.0, 0.0002702);
  (440.0, 0.0002926); (441.0, 0.0003156); (442.0, 0.0003394); (443.0, 0.000364);
  (444.0, 0.0003897); (445.0, 0.0004167); (446.0, 0.000445); (447.0, 0.0004745);
  (448.0, 0.0005054); (449.0, 0.0005377); (450.0, 0.0005713); (451.0, 0.0006062);
  (452.0, 0.0006426); (453.0, 0.0006803); (454.0, 0.0007194); (455.0, 0.0007598);
  (456.0, 0.0008017); (457.0, 0.0008449); (458.0, 0.0008891); (459.0, 0.0009342);
  (460.0, 0.00098); (461.0, 0.0010264); (462.0, 0.0010734); (463.0, 0.0011211);
  (464.0, 0.0011696); (465.0, 0.001219); (466.0, 0.0012693); (467.0, 0.0013205);
  (468.0, 0.0013729); (469.0, 0.0014269); (470.0, 0.0014826); (471.0, 0.0015401);
  (472.0, 0.0015995); (473.0, 0.0016608); (474.0, 0.001724); (475.0, 0.0017891);
  (476.0, 0.0018563); (477.0, 0.0019256); (478.0, 0.0019967); (479.0, 0.002069);
  (480.0, 0.0021424); (481.0, 0.0022166); (482.0, 0.0022922); (483.0, 0.00237);
  (484.0, 0.0024507); (485.0, 0.0025351); (486.0, 0.0026236); (487.0, 0.0027165);
  (488.0, 0.0028142); (489.0, 0.0029173); (490.0, 0.0030263); (491.0, 0.0031418);
  (492.0, 0.003264); (493.0, 0.0033928); (494.0, 0.003528); (495.0, 0.0036695);
  (496.0, 0.0038168); (497.0, 0.0039706); (498.0, 0.0041327); (499.0, 0.0043045);
  (500.0, 0.0044878); (501.0, 0.0046836); (502.0, 0.0048904); (503.0, 0.005106);
  (504.0, 0.0053279); (505.0, 0.0055539); (506.0, 0.0057824); (507.0, 0.0060137);
  (508.0, 0.0062484); (509.0, 0.0064873); (510.0, 0.0067307); (511.0, 0.0069786);
  (512.0, 0.0072292); (513.0, 0.0074806); (514.0, 0.007731); (515.0, 0.0079785);
  (516.0, 0.0082225); (517.0, 0.0084618); (518.0, 0.0086938); (519.0, 0.0089159);
  (520.0, 0.0091254); (521.0, 0.0093204); (522.0, 0.0095018); (523.0, 0.0096712);
  (524.0, 0.0098304); (525.0, 0.0099812); (526.0, 0.0101242); (527.0, 0.0102587);
  (528.0, 0.0103843); (529.0, 0.0105006); (530.0, 0.0106074); (531.0, 0.0107046);
  (532.0, 0.0107925); (533.0, 0.0108717); (534.0, 0.0109425); (535.0, 0.0110054);
  (536.0, 0.0110606); (537.0, 0.0111082); (538.0, 0.011148); (539.0, 0.0111802);
  (540.0, 0.0112046); (541.0, 0.0112213); (542.0, 0.0112306); (543.0, 0.0112326);
  (544.0, 0.0112273); (545.0, 0.0112149); (546.0, 0.0111954); (547.0, 0.011169);
  (548.0, 0.0111362); (549.0, 0.0110973); (550.0, 0.0110527); (551.0, 0.0110022);
  (552.0, 0.0109459); (553.0, 0.0108839); (554.0, 0.0108161); (555.0, 0.0107425);
  (556.0, 0.0106629); (557.0, 0.0105773); (558.0, 0.0104855); (559.0, 0.0103873);
  (560.0, 0.0102827); (561.0, 0.0101713); (562.0, 0.0100537); (563.0, 0.0099302);
  (564.0, 0.0098011); (565.0, 0.0096665); (566.0, 0.0095268); (567.0, 0.0093819);
  (568.0, 0.009232); (569.0, 0.0090771); (570.0, 0.0089174); (571.0, 0.0087528);
  (572.0, 0.0085837); (573.0, 0.0084104); (574.0, 0.0082333); (575.0, 0.0080525);
  (576.0, 0.0078685); (577.0, 0.0076814); (578.0, 0.0074915); (579.0, 0.0072987);
  (580.0, 0.0071033); (581.0, 0.0069055); (582.0, 0.0067057); (583.0, 0.0065044);
  (584.0, 0.0063021); (585.0, 0.0060993); (586.0, 0.0058964); (587.0, 0.0056937);
  (588.0, 0.0054917); (589.0, 0.0052906); (590.0, 0.005091); (591.0, 0.0048931);
  (592.0, 0.0046974); (593.0, 0.0045043); (594.0, 0.0043144); (595.0, 0.0041283);
  (596.0, 0.0039465); (597.0, 0.003769); (598.0, 0.0035956); (599.0, 0.0034261);
  (600.0, 0.0032602); (601.0, 0.0030979); (602.0, 0.0029397); (603.0, 0.0027858);
  (604.0, 0.0026369); (605.0, 0.0024933); (606.0, 0.0023553); (607.0, 0.0022229);
  (608.0, 0.0020958); (609.0, 0.0019739); (610.0, 0.0018572); (611.0, 0.0017455);
  (612.0, 0.0016389); (613.0, 0.0015372); (614.0, 0.0014404); (615.0, 0.0013484);
  (616.0, 0.001261); (617.0, 0.0011783); (618.0, 0.0010998); (619.0, 0.0010253);
  (620.0, 0.0009547); (621.0, 0.0008876); (622.0, 0.0008241); (623.0, 0.0007641);
  (624.0, 0.0007075); (625.0, 0.0006544); (626.0, 0.0006045); (627.0, 0.0005578);
  (628.0, 0.0005141); (629.0, 0.0004733); (630.0, 0.0004351); (631.0, 0.0003996);
  (632.0, 0.0003666); (633.0, 0.0003359); (634.0, 0.0003074); (635.0, 0.0002809);
  (636.0, 0.0002562); (637.0, 0.0002334); (638.0, 0.0002123); (639.0, 0.0001928);
  (640.0, 0.0001747); (641.0, 0.0001581); (642.0, 0.0001428); (643.0, 0.0001287);
  (644.0, 0.0001159); (645.0, 0.0001043); (646.0, 9.38e-05); (647.0, 8.43e-05);
  (648.0, 7.57e-05); (649.0, 6.8e-05); (650.0, 6.1e-05); (651.0, 5.46e-05);
  (652.0, 4.88e-05); (653.0, 4.36e-05); (654.0, 3.89e-05); (655.0, 3.46e-05);
  (656.0, 3.08e-05); (657.0, 2.74e-05); (658.0, 2.43e-05); (659.0, 2.16e-05);
  (660.0, 1.92e-05); (661.0, 1.7e-05); (662.0, 1.52e-05); (663.0, 1.35e-05);
  (664.0, 1.21e-05); (665.0, 1.07e-05); (666.0, 9.5e-06); (667.0, 8.4e-06);
  (668.0, 7.5e-06); (669.0, 6.6e-06); (670.0, 5.8e-06); (671.0, 5.1e-06);
  (672.0, 4.5e-06); (673.0, 4e-06); (674.0, 3.5e-06); (675.0, 3.1e-06);
  (676.0, 2.7e-06); (677.0, 2.3e-06); (678.0, 2e-06); (679.0, 1.7e-06);
  (680.0, 1.5e-06); (681.0, 1.2e-06); (682.0, 1e-06); (683.0, 8e-07);
  (684.0, 7e-07); (685.0, 5e-07); (686.0, 4e-07); (687.0, 3e-07);
  (688.0, 3e-07); (689.0, 2e-07); (690.0, 2e-07); (691.0, 1e-07);
  (692.0, 1e-07); (693.0, 1e-07); (694.0, 1e-07); (695.0, 0.0);
  (696.0, 0.0); (697.0, 0.0); (698.0, 0.0); (699.0, 0.0);
  (700.0, 0.0); (701.0, 0.0); (702.0, 0.0); (703.0, 0.0);
  (704.0, 0.0); (705.0, 0.0); (706.0, 0.0); (707.0, 0.0);
  (708.0, 0.0); (709.0, 0.0); (710.0, 0.0); (711.0, 0.0);
  (712.0, 0.0); (713.0, 0.0); (714.0, 0.0); (715.0, 0.0);
  (716.0, 0.0); (717.0, 0.0); (718.0, 0.0); (719.0, 0.0);
  (720.0, 0.0); (721.0, 0.0); (722.0, 0.0); (723.0, 0.0);
  (724.0, 0.0); (725.0, 0.0); (726.0, 0.0); (727.0, 0.0);
  (728.0, 0.0); (729.0, 0.0); (730.0, 0.0); (731.0, 0.0);
  (732.0, 0.0); (733.0, 0.0); (734.0, 0.0); (735.0, 0.0);
  (736.0, 0.0); (737.0, 0.0); (738.0, 0.0); (739.0, 0.0);
  (740.0, 0.0); (741.0, 0.0); (742.0, 0.0); (743.0, 0.0);
  (744.0, 0.0); (745.0, 0.0); (746.0, 0.0); (747.0, 0.0);
  (748.0, 0.0); (749.0, 0.0); (750.0, 0.0); (751.0, 0.0);
  (752.0, 0.0); (753.0, 0.0); (754.0, 0.0); (755.0, 0.0);
  (756.0, 0.0); (757.0, 0.0); (758.0, 0.0); (759.0, 0.0);
  (760.0, 0.0); (761.0, 0.0); (762.0, 0.0); (763.0, 0.0);
  (764.0, 0.0); (765.0, 0.0); (766.0, 0.0); (767.0, 0.0);
  (768.0, 0.0); (769.0, 0.0); (770.0, 0.0); (771.0, 0.0);
  (772.0, 0.0); (773.0, 0.0); (774.0, 0.0); (775.0, 0.0);
  (776.0, 0.0); (777.0, 0.0); (778.0, 0.0); (779.0, 0.0);
  (780.0, 0.0); (781.0, 0.0); (782.0, 0.0); (783.0, 0.0);
  (784.0, 0.0); (785.0, 0.0); (786.0, 0.0); (787.0, 0.0);
  (788.0, 0.0); (789.0, 0.0); (790.0, 0.0); (791.0, 0.0);
  (792.0, 0.0); (793.0, 0.0); (794.0, 0.0); (795.0, 0.0);
  (796.0, 0.0); (797.0, 0.0); (798.0, 0.0); (799.0, 0.0);
  (800.0, 0.0); (801.0, 0.0); (802.0, 0.0); (803.0, 0.0);
  (804.0, 0.0); (805.0, 0.0); (806.0, 0.0); (807.0, 0.0);
  (808.0, 0.0); (809.0, 0.0); (810.0, 0.0); (811.0, 0.0);
  (812.0, 0.0); (813.0, 0.0); (814.0, 0.0); (815.0, 0.0);
  (816.0, 0.0); (817.0, 0.0); (818.0, 0.0); (819.0, 0.0);
  (820.0, 0.0); (821.0, 0.0); (822.0, 0.0); (823.0, 0.0);
  (824.0, 0.0); (825.0, 0.0); (826.0, 0.0); (827.0, 0.0);
  (828.0, 0.0); (829.0, 0.0); (830.0, 0.0)].

(** ['b_bar'], lines 983 to 1454. *)
Definition ACES_RICD_DATA_b_bar : list (float * float) := [
  (360.0, 5.7e-06); (361.0, 6.4e-06); (362.0, 7.2e-06); (363.0, 8e-06);
  (364.0, 9e-06); (365.0, 1.02e-05); (366.0, 1.14e-05); (367.0, 1.28e-05);
  (368.0, 1.44e-05); (369.0, 1.62e-05); (370.0, 1.82e-05); (371.0, 2.04e-05);
  (372.0, 2.28e-05); (373.0, 2.56e-05); (374.0, 2.88e-05); (375.0, 3.26e-05);
  (376.0, 3.72e-05); (377.0, 4.25e-05); (378.0, 4.83e-05); (379.0, 5.43e-05);
  (380.0, 6.03e-05); (381.0, 6.63e-05); (382.0, 7.25e-05); (383.0, 7.95e-05);
  (384.0, 8.81e-05); (385.0, 9.87e-05); (386.0, 0.0001119); (387.0, 0.0001278);
  (388.0, 0.0001458); (389.0, 0.0001659); (390.0, 0.0001876); (391.0, 0.0002106);
  (392.0, 0.0002358); (393.0, 0.0002646); (394.0, 0.0002984); (395.0, 0.0003388);
  (396.0, 0.0003877); (397.0, 0.0004444); (398.0, 0.0005063); (399.0, 0.0005706);
  (400.0, 0.0006348); (401.0, 0.0006968); (402.0, 0.0007612); (403.0, 0.0008341);
  (404.0, 0.0009219); (405.0, 0.0010309); (406.0, 0.0011658); (407.0, 0.0013256);
  (408.0, 0.001509); (409.0, 0.0017144); (410.0, 0.0019403); (411.0, 0.0021862);
  (412.0, 0.0024568); (413.0, 0.0027577); (414.0, 0.0030947); (415.0, 0.0034736);
  (416.0, 0.0038937); (417.0, 0.0043545); (418.0, 0.0048619); (419.0, 0.0054216);
  (420.0, 0.0060397); (421.0, 0.0067216); (422.0, 0.0074534); (423.0, 0.0082124);
  (424.0, 0.0089758); (425.0, 0.0097205); (426.0, 0.0104345); (427.0, 0.0111186);
  (428.0, 0.01177); (429.0, 0.0123856); (430.0, 0.0129626); (431.0, 0.0134962);
  (432.0, 0.0139842); (433.0, 0.0144275); (434.0, 0.0148269); (435.0, 0.0151831);
  (436.0, 0.015496); (437.0, 0.0157663); (438.0, 0.0159962); (439.0, 0.0161881);
  (440.0, 0.0163441); (441.0, 0.0164656); (442.0, 0.0165552); (443.0, 0.0166173);
  (444.0, 0.0166563); (445.0, 0.0166766); (446.0, 0.0166801); (447.0, 0.0166682);
  (448.0, 0.0166448); (449.0, 0.0166136); (450.0, 0.0165785); (451.0, 0.0165424);
  (452.0, 0.016503); (453.0, 0.0164553); (454.0, 0.0163947); (455.0, 0.0163164);
  (456.0, 0.0162178); (457.0, 0.016099); (458.0, 0.0159594); (459.0, 0.0157985);
  (460.0, 0.0156157); (461.0, 0.015413); (462.0, 0.0151874); (463.0, 0.0149311);
  (464.0, 0.0146365); (465.0, 0.0142957); (466.0, 0.0139029); (467.0, 0.013467);
  (468.0, 0.0130026); (469.0, 0.0125242); (470.0, 0.0120461); (471.0, 0.0115764);
  (472.0, 0.0111124); (473.0, 0.0106534); (474.0, 0.0101986); (475.0, 0.0097472);
  (476.0, 0.0093009); (477.0, 0.0088626); (478.0, 0.0084333); (479.0, 0.0080139);
  (480.0, 0.0076053); (481.0, 0.0072084); (482.0, 0.0068241); (483.0, 0.0064543);
  (484.0, 0.0061006); (485.0, 0.0057647); (486.0, 0.0054478); (487.0, 0.0051493);
  (488.0, 0.0048679); (489.0, 0.0046025); (490.0, 0.0043519); (491.0, 0.0041156);
  (492.0, 0.0038935); (493.0, 0.0036849); (494.0, 0.003489); (495.0, 0.0033052);
  (496.0, 0.0031327); (497.0, 0.0029708); (498.0, 0.0028191); (499.0, 0.0026772);
  (500.0, 0.0025446); (501.0, 0.0024213); (502.0, 0.0023059); (503.0, 0.0021963);
  (504.0, 0.0020905); (505.0, 0.0019861); (506.0, 0.001882); (507.0, 0.0017786);
  (508.0, 0.0016767); (509.0, 0.0015769); (510.0, 0.00148); (511.0, 0.0013859);
  (512.0, 0.0012945); (513.0, 0.0012068); (514.0, 0.0011233); (515.0, 0.001045);
  (516.0, 0.0009721); (517.0, 0.0009043); (518.0, 0.0008418); (519.0, 0.0007844);
  (520.0, 0.000732); (521.0, 0.0006849); (522.0, 0.0006425); (523.0, 0.000604);
  (524.0, 0.0005687); (525.0, 0.0005356); (526.0, 0.0005043); (527.0, 0.0004747);
  (528.0, 0.0004467); (529.0, 0.00042); (530.0, 0.0003944); (531.0, 0.0003696);
  (532.0, 0.0003455); (533.0, 0.0003224); (534.0, 0.0003002); (535.0, 0.0002792);
  (536.0, 0.0002592); (537.0, 0.0002404); (538.0, 0.0002225); (539.0, 0.0002057);
  (540.0, 0.0001899); (541.0, 0.0001751); (542.0, 0.0001613); (543.0, 0.0001484);
  (544.0, 0.0001364); (545.0, 0.0001254); (546.0, 0.0001151); (547.0, 0.0001057);
  (548.0, 9.71e-05); (549.0, 8.91e-05); (550.0, 8.19e-05); (551.0, 7.52e-05);
  (552.0, 6.91e-05); (553.0, 6.35e-05); (554.0, 5.84e-05); (555.0, 5.38e-05);
  (556.0, 4.96e-05); (557.0, 4.58e-05); (558.0, 4.24e-05); (559.0, 3.93e-05);
  (560.0, 3.65e-05); (561.0, 3.39e-05); (562.0, 3.15e-05); (563.0, 2.94e-05);
  (564.0, 2.75e-05); (565.0, 2.57e-05); (566.0, 2.42e-05); (567.0, 2.28e-05);
  (568.0, 2.16e-05); (569.0, 2.06e-05); (570.0, 1.96e-05); (571.0, 1.89e-05);
  (572.0, 1.82e-05); (573.0, 1.77e-05); (574.0, 1.72e-05); (575.0, 1.68e-05);
  (576.0, 1.65e-05); (577.0, 1.63e-05); (578.0, 1.6e-05); (579.0, 1.57e-05);
  (580.0, 1.54e-05); (581.0, 1.51e-05); (582.0, 1.46e-05); (583.0, 1.42e-05);
  (584.0, 1.36e-05); (585.0, 1.31e-05); (586.0, 1.25e-05); (587.0, 1.19e-05);
  (588.0, 1.13e-05); (589.0, 1.07e-05); (590.0, 1.03e-05); (591.0, 1e-05);
  (592.0, 9.8e-06); (593.0, 9.7e-06); (594.0, 9.6e-06); (595.0, 9.4e-06);
  (596.0, 9.1e-06); (597.0, 8.7e-06); (598.0, 8.3e-06); (599.0, 7.9e-06);
  (600.0, 7.5e-06); (601.0, 7.1e-06); (602.0, 6.8e-06); (603.0, 6.4e-06);
  (604.0, 6e-06); (605.0, 5.6e-06); (606.0, 5.1e-06); (607.0, 4.6e-06);
  (608.0, 4.1e-06); (609.0, 3.6e-06); (610.0, 3.2e-06); (611.0, 2.9e-06);
  (612.0, 2.6e-06); (613.0, 2.5e-06); (614.0, 2.4e-06); (615.0, 2.2e-06);
  (616.0, 2.1e-06); (617.0, 2.1e-06); (618.0, 2e-06); (619.0, 1.9e-06);
  (620.0, 1.8e-06); (621.0, 1.6e-06); (622.0, 1.5e-06); (623.0, 1.3e-06);
  (624.0, 1.1e-06); (625.0, 9e-07); (626.0, 8e-07); (627.0, 7e-07);
  (628.0, 6e-07); (629.0, 5e-07); (630.0, 5e-07); (631.0, 4e-07);
  (632.0, 4e-07); (633.0, 3e-07); (634.0, 3e-07); (635.0, 3e-07);
  (636.0, 3e-07); (637.0, 2e-07); (638.0, 2e-07); (639.0, 2e-07);
  (640.0, 2e-07); (641.0, 2e-07); (642.0, 2e-07); (643.0, 1e-07);
  (644.0, 1e-07); (645.0, 1e-07); (646.0, 1e-07); (647.0, 1e-07);
  (648.0, 0.0); (649.0, 0.0); (650.0, 0.0); (651.0, 0.0);
  (652.0, 0.0); (653.0, 0.0); (654.0, 0.0); (655.0, 0.0);
  (656.0, 0.0); (657.0, 0.0); (658.0, 0.0); (659.0, 0.0);
  (660.0, 0.0); (661.0, 0.0); (662.0, 0.0); (663.0, 0.0);
  (664.0, 0.0); (665.0, 0.0); (666.0, 0.0); (667.0, 0.0);
  (668.0, 0.0); (669.0, 0.0); (670.0, 0.0); (671.0, 0.0);
  (672.0, 0.0); (673.0, 0.0); (674.0, 0.0); (675.0, 0.0);
  (676.0, 0.0); (677.0, 0.0); (678.0, 0.0); (679.0, 0.0);
  (680.0, 0.0); (681.0, 0.0); (682.0, 0.0); (683.0, 0.0);
  (684.0, 0.0); (685.0, 0.0); (686.0, 0.0); (687.0, 0.0);
  (688.0, 0.0); (689.0, 0.0); (690.0, 0.0); (691.0, 0.0);
  (692.0, 0.0); (693.0, 0.0); (694.0, 0.0); (695.0, 0.0);
  (696.0, 0.0); (697.0, 0.0); (698.0, 0.0); (699.0, 0.0);
  (700.0, 0.0); (701.0, 0.0); (702.0, 0.0); (703.0, 0.0);
  (704.0, 0.0); (705.0, 0.0); (706.0, 0.0); (707.0, 0.0);
  (708.0, 0.0); (709.0, 0.0); (710.0, 0.0); (711.0, 0.0);
  (712.0, 0.0); (713.0, 0.0); (714.0, 0.0); (715.0, 0.0);
  (716.0, 0.0); (717.0, 0.0); (718.0, 0.0); (719.0, 0.0);
  (720.0, 0.0); (721.0, 0.0); (722.0, 0.0); (723.0, 0.0);
  (724.0, 0.0); (725.0, 0.0); (726.0, 0.0); (727.0, 0.0);
  (728.0, 0.0); (729.0, 0.0); (730.0, 0.0); (731.0, 0.0);
  (732.0, 0.0); (733.0, 0.0); (734.0, 0.0); (735.0, 0.0);
  (736.0, 0.0); (737.0, 0.0); (738.0, 0.0); (739.0, 0.0);
  (740.0, 0.0); (741.0, 0.0); (742.0, 0.0); (743.0, 0.0);
  (744.0, 0.0); (745.0, 0.0); (746.0, 0.0); (747.0, 0.0);
  (748.0, 0.0); (749.0, 0.0); (750.0, 0.0); (751.0, 0.0);
  (752.0, 0.0); (753.0, 0.0); (754.0, 0.0); (755.0, 0.0);
  (756.0, 0.0); (757.0, 0.0); (758.0, 0.0); (759.0, 0.0);
  (760.0, 0.0); (761.0, 0.0); (762.0, 0.0); (763.0, 0.0);
  (764.0, 0.0); (765.0, 0.0); (766.0, 0.0); (767.0, 0.0);
  (768.0, 0.0); (769.0, 0.0); (770.0, 0.0); (771.0, 0.0);
  (772.0, 0.0); (773.0, 0.0); (774.0, 0.0); (775.0, 0.0);
  (776.0, 0.0); (777.0, 0.0); (778.0, 0.0); (779.0, 0.0);
  (780.0, 0.0); (781.0, 0.0); (782.0, 0.0); (783.0, 0.0);
  (784.0, 0.0); (785.0, 0.0); (786.0, 0.0); (787.0, 0.0);
  (788.0, 0.0); (789.0, 0.0); (790.0, 0.0); (791.0, 0.0);
  (792.0, 0.0); (793.0, 0.0); (794.0, 0.0); (795.0, 0.0);
  (796.0, 0.0); (797.0, 0.0); (798.0, 0.0); (799.0, 0.0);
  (800.0, 0.0); (801.0, 0.0); (802.0, 0.0); (803.0, 0.0);
  (804.0, 0.0); (805.0, 0.0); (806.0, 0.0); (807.0, 0.0);
  (808.0, 0.0); (809.0, 0.0); (810.0, 0.0); (811.0, 0.0);
  (812.0, 0.0); (813.0, 0.0); (814.0, 0.0); (815.0, 0.0);
  (816.0, 0.0); (817.0, 0.0); (818.0, 0.0); (819.0, 0.0);
  (820.0, 0.0); (821.0, 0.0); (822.0, 0.0); (823.0, 0.0);
  (824.0, 0.0); (825.0, 0.0); (826.0, 0.0); (827.0, 0.0);
  (828.0, 0.0); (829.0, 0.0); (830.0, 0.0)].

(** [ACES_RICD_DATA]: a dict literal makes its dict by setting the items in
    the order they are written. *)
Definition ACES_RICD_DATA : list (string * dict) :=
  [("r_bar"%string, dict_of_pairs ACES_RICD_DATA_r_bar);
   ("g_bar"%string, dict_of_pairs ACES_RICD_DATA_g_bar);
   ("b_bar"%string, dict_of_pairs ACES_RICD_DATA_b_bar)].

(** ** The formula of the specification

    [radiance = (c1 n^-2 l^-5 / pi) (exp(c2 / (n l T)) - 1)^-1], on
    binary64, from left to right; [n_2] is the value of [n^-2]. *)
Definition radiance (M : Libm) (c1 c2 n n_2 l t : float) : float :=
  (c1 * n_2 * c_pow M l (-5) / np_pi)
  * c_pow M (c_exp M (c2 / (n * l * t)) - 1) (-1).

(** ** Predicates of the statements *)

(** Two arrays can be broadcast together. *)
Definition broadcastable (a b : ndarray) : bool :=
  match a, b with
  | Arr1 xs, Arr1 ys =>
      (List.length xs =? List.length ys)%nat
      || (List.length xs =? 1)%nat || (List.length ys =? 1)%nat
  | _, _ => true
  end.

(** No key of [d] compares equal to [k]. *)
Definition fresh (k : float) (d : dict) : Prop :=
  Forall (fun kv => (fst kv =? k) = false) d.

(** [x] is a NaN or has the sign [s]. *)
Definition SFsign_is (s : bool) (x : spec_float) : bool :=
  match x with
  | S754_zero s' | S754_infinity s' | S754_finite s' _ _ => Bool.eqb s s'
  | S754_nan => true
  end.

(** No two keys of [d] compare equal. *)
Definition distinct_keys (d : dict) : Prop :=
  ForallOrdPairs (fun a b => (fst a =? fst b) = false) d.

(** Every item of [d] has a key of [ws] and the value of [f] at an element
    of [ws]. *)
Definition drawn_from (f : float -> float) (ws : list float) (d : dict) : Prop :=
  Forall (fun kv => In (fst kv) ws /\ exists w, In w ws /\ snd kv = f w) d.

(** The whole numbers [first], [first + 1], ... ([count] of them) as
    floats. *)
Definition whole_wavelengths (first : Z) (count : nat) : list float :=
  map (fun i => SF2Prim (SF_of_Z (first + Z.of_nat i))) (seq 0 count).

(** ** The value of a float

    The real number that a finite float stands for; [0] for an infinity or
    a NaN. *)
Definition SF2R (x : spec_float) : R :=
  match x with
  | S754_finite s m e => (IZR (cond_Zopp s (Zpos m)) * powerRZ 2 e)%R
  | _ => 0%R
  end.

Definition F2R (x : float) : R := SF2R (Prim2SF x).

(** The float [x] is the real number [v] within the relative error
    [2^-50], as every float off by at most four units in the last place
    is. *)
Definition accuracy : R := (/ 2 ^ 50)%R.

Definition accurate (x : float) (v : R) : Prop :=
  (Rabs (F2R x - v) <= accuracy * Rabs v)%R.

(** The [n] floats of exponent [e] from the mantissa [lo] on. *)
Definition binade (e lo : Z) (n : nat) : list float :=
  map (fun i => SF2Prim (S754_finite false (Z.to_pos (lo + Z.of_nat i)) e)) (seq 0 n).

(** The factorial, in binary. *)
Fixpoint Zfact (n : nat) : Z :=
  match n with
  | O => 1
  | S m => Z.of_nat (S m) * Zfact m
  end.

(** ** A small C library

    An implementation of [exp] and [pow] on binary64, to run the module on
    concrete inputs: [exp] by the reduction [x = k ln 2 + r] and a Taylor
    polynomial in [r], [log] by the series of [atanh], [pow] by repeated
    squaring for an integral exponent and by [exp (y log x)] otherwise, after
    the special cases of C99 F.9.4.4. *)
Module SampleLibm.

Definition ln2_hi : float := 0x1.62e42fee00000p-1.
Definition ln2_lo : float := 0x1.a39ef35793c76p-33.
Definition inv_ln2 : float := 0x1.71547652b82fep+0.

(** The integer part of a finite float (towards zero). *)
Definition trunc (x : float) : Z :=
  match Prim2SF x with
  | S754_finite s m e => cond_Zopp s (Z.shiftl (Zpos m) e)
  | _ => 0%Z
  end.

Definition of_Z (z : Z) : float := SF2Prim (SF_of_Z z).

Definition horner (r : float) (ks : list float) : float :=
  fold_right (fun k acc => 1 + r / k * acc) 1 ks.

Definition exp_core (x : float) : float :=
  let k := trunc (x * inv_ln2 + (if x <? 0 then -0.5 else 0.5)) in
  let r := x - of_Z k * ln2_hi - of_Z k * ln2_lo in
  Z.ldexp (horner r [1; 2; 3; 4; 5; 6; 7; 8; 9; 10; 11; 12; 13; 14]) k.

Definition exp (x : float) : float :=
  if 710 <=? x then infinity
  else if 0 <=? x then (let r := exp_core x in if 1 <=? r then r else 1)
  else if x <? 0 then exp_core x
  else nan.

(** [log] of a positive finite float. *)
Definition log (x : float) : float :=
  let (m, e) := Z.frexp x in
  let (m, e) := if m <? 0x1.6a09e667f3bcdp-1 then (2 * m, (e - 1)%Z) else (m, e) in
  let z := (m - 1) / (m + 1) in
  let s := fold_right (fun k acc => 1 / k + z * z * acc) 0
             [1; 3; 5; 7; 9; 11; 13; 15; 17; 19; 21; 23] in
  of_Z e * ln2_hi + (2 * (z * s) + of_Z e * ln2_lo).

Fixpoint pow_pos (x : float) (p : positive) : float :=
  match p with
  | xH => x
  | xO p' => let h := pow_pos x p' in h * h
  | xI p' => let h := pow_pos x p' in x * (h * h)
  end.

(** The value of a float that is an integer. *)
Definition to_integer (y : float) : option Z :=
  match Prim2SF y with
  | S754_zero _ => Some 0%Z
  | S754_finite s m e =>
      if (0 <=? e)%Z || (Z.land (Zpos m) (Z.ones (- e)) =? 0)%Z
      then Some (cond_Zopp s (Z.shiftl (Zpos m) e))
      else None
  | _ => None
  end.

Definition pow_core (x y : float) : float :=
  if (x =? infinity) && (y <? 0) then 0
  else if y =? 0 then 1
  else if x =? 1 then 1
  else if is_nan x || is_nan y then nan
  else if is_infinity y then
    if abs x =? 1 then 1
    else if Bool.eqb (0 <? y) (1 <? abs x) then infinity else 0
  else
    match to_integer y with
    | Some (Zpos p) => pow_pos x p
    | Some (Zneg p) => 1 / pow_pos x p
    | Some Z0 => 1
    | None =>
        if is_infinity x then (if 0 <? y then infinity else 0)
        else if x =? 0 then (if 0 <? y then 0 else infinity)
        else if x <? 0 then nan
        else exp (y * log x)
    end.

(** The sign of the result is forced where C99 fixes it. *)
Definition pow (x y : float) : float :=
  let r := pow_core x y in
  if sign_clear x then abs r else r.

End SampleLibm.

(** ** Sample inputs

    A shape that is its own range, and a [str] that writes nothing of a
    float. *)
Definition sample_range (shape : list float) : list float := shape.
Definition sample_str (x : float) : string := "?".
Definition sample_array_str (a : ndarray) : string := "?".

(** * Facts about binary64 *)

Section Binary64.

Lemma Prim2SF_zero : Prim2SF 0 = S754_zero false.
Proof. reflexivity. Qed.

Lemma Prim2SF_one : Prim2SF 1 = S754_finite false 4503599627370496 (-52).
Proof. reflexivity. Qed.

Lemma Prim2SF_nan_inv (x : float) : Prim2SF x = S754_nan -> x = nan.
Proof. intros H. apply Prim2SF_inj. rewrite H. reflexivity. Qed.

(** The sign of a rounded result is the sign the rounding was given. *)
Lemma binary_round_aux_sign (s : bool) (m e : Z) (l : location) :
  SFsign_is s (binary_round_aux prec emax s m e l) = true.
Proof.
  unfold binary_round_aux.
  destruct (shr_fexp prec emax m e l) as [mrs e'].
  destruct (shr_fexp prec emax _ e' loc_Exact) as [mrs' e''].
  destruct (shr_m mrs'); [| destruct (Z.leb e'' _) |]; simpl;
    auto using Bool.eqb_reflx.
Qed.

Lemma SFsign_is_clear (x : spec_float) : SFsign_is false x = true -> SFsign_clear x = true.
Proof. destruct x as [s|s| |s m e]; simpl; try destruct s; auto. Qed.

Lemma SFmul_sign_clear (x y : spec_float) :
  SFsign_clear x = true -> SFsign_clear y = true -> SFsign_clear (SF64mul x y) = true.
Proof.
  destruct x as [[]|[]| |[] mx ex], y as [[]|[]| |[] my ey]; simpl; try easy.
  intros _ _. apply SFsign_is_clear, binary_round_aux_sign.
Qed.

Lemma SFdiv_sign_clear (x y : spec_float) :
  SFsign_clear x = true -> SFsign_clear y = true -> SFsign_clear (SF64div x y) = true.
Proof.
  destruct x as [[]|[]| |[] mx ex], y as [[]|[]| |[] my ey]; simpl; try easy.
  intros _ _.
  destruct (SFdiv_core_binary prec emax (Zpos mx) ex (Zpos my) ey) as [[mz ez] lz].
  apply SFsign_is_clear, binary_round_aux_sign.
Qed.

Lemma mul_sign_clear (x y : float) :
  sign_clear x = true -> sign_clear y = true -> sign_clear (x * y) = true.
Proof. unfold sign_clear. rewrite mul_spec. apply SFmul_sign_clear. Qed.

Lemma div_sign_clear (x y : float) :
  sign_clear x = true -> sign_clear y = true -> sign_clear (x / y) = true.
Proof. unfold sign_clear. rewrite div_spec. apply SFdiv_sign_clear. Qed.

Lemma abs_sign_clear (x : float) : sign_clear (abs x) = true.
Proof. unfold sign_clear. rewrite abs_spec. now destruct (Prim2SF x). Qed.

Lemma pos_sign_clear (x : float) : (0 <? x) = true -> sign_clear x = true.
Proof.
  unfold sign_clear. rewrite ltb_spec, Prim2SF_zero.
  destruct (Prim2SF x) as [s|[]| |[] m e]; simpl; easy.
Qed.

Lemma sign_clear_not_neg (x : float) : sign_clear x = true -> (x <? 0) = false.
Proof.
  unfold sign_clear. rewrite ltb_spec, Prim2SF_zero.
  destruct (Prim2SF x) as [s|[]| |[] m e]; simpl; easy.
Qed.

Lemma SFeqb_refl (x : spec_float) : x <> S754_nan -> SFeqb x x = true.
Proof.
  unfold SFeqb, SFcompare.
  destruct x as [s|[]| |[] m e]; try easy;
    now rewrite Z.compare_refl, Pos.compare_cont_refl.
Qed.

Lemma pos_not_nan (x : float) : (0 <? x) = true -> is_nan x = false.
Proof.
  unfold is_nan. rewrite ltb_spec, FloatAxioms.eqb_spec, Prim2SF_zero. intros H.
  rewrite SFeqb_refl; [reflexivity|].
  intros E. now rewrite E in H.
Qed.

Lemma pos_not_zero (x : float) : (0 <? x) = true -> (x =? 0) = false.
Proof.
  rewrite ltb_spec, FloatAxioms.eqb_spec, Prim2SF_zero.
  now destruct (Prim2SF x) as [s|[]| |[] m e].
Qed.

(** A float whose sign is clear is a NaN or is at least zero. *)
Lemma sign_clear_cases (x : float) :
  sign_clear x = true -> x = nan \/ (0 <=? x) = true.
Proof.
  unfold sign_clear. rewrite leb_spec, Prim2SF_zero. intros H.
  destruct (Prim2SF x) as [s|[]| |[] m e] eqn:E; simpl in *; try easy; auto.
  left. now apply Prim2SF_nan_inv.
Qed.

(** A product with zero is zero or a NaN. *)
Lemma mul_zero_not_pos (x : float) : (0 <? x * 0) = false.
Proof.
  rewrite ltb_spec, mul_spec, Prim2SF_zero.
  destruct (Prim2SF x) as [s|s| |s m e]; reflexivity.
Qed.

(** *** [e - 1] for [e >= 1] *)

Lemma digits2_pos_lower (m : positive) :
  (2 ^ (Zpos (digits2_pos m) - 1) <= Zpos m)%Z.
Proof.
  induction m as [m IH|m IH|]; simpl digits2_pos.
  - rewrite Pos2Z.inj_succ.
    replace (Z.succ (Zpos (digits2_pos m)) - 1)%Z
      with (Z.succ (Zpos (digits2_pos m) - 1))%Z by lia.
    rewrite Z.pow_succ_r by lia. lia.
  - rewrite Pos2Z.inj_succ.
    replace (Z.succ (Zpos (digits2_pos m)) - 1)%Z
      with (Z.succ (Zpos (digits2_pos m) - 1))%Z by lia.
    rewrite Z.pow_succ_r by lia. lia.
  - simpl. lia.
Qed.

Lemma iter_xO_ge (m d : positive) : (Zpos m <= Zpos (Pos.iter xO m d))%Z.
Proof.
  induction d as [|d IH] using Pos.peano_ind.
  - simpl. lia.
  - rewrite Pos.iter_succ. lia.
Qed.

(** A valid binary64 above the subnormal exponent has a full mantissa. *)
Lemma valid_full_mantissa (s : bool) (m : positive) (e : Z) :
  valid_binary (S754_finite s m e) = true -> (-1074 < e)%Z ->
  (2 ^ 52 <= Zpos m)%Z.
Proof.
  unfold SpecFloat.valid_binary, SpecFloat.bounded, SpecFloat.canonical_mantissa,
    SpecFloat.fexp, SpecFloat.emin.
  change prec with 53%Z. change emax with 1024%Z.
  intros H He. apply andb_prop in H as [H _]. apply Z.eqb_eq in H.
  assert (D : Zpos (digits2_pos m) = 53%Z) by lia.
  pose proof (digits2_pos_lower m) as L. rewrite D in L. exact L.
Qed.

Lemma SFsub_one_sign_clear (x : spec_float) :
  valid_binary x = true ->
  SFleb (Prim2SF 1) x = true ->
  SFsign_clear (SF64sub x (Prim2SF 1)) = true.
Proof.
  rewrite Prim2SF_one. intros V.
  destruct x as [s|[]| |[] m e]; try easy.
  unfold SFleb, SFcompare. intros L.
  assert (G : (2 ^ 52 <= Zpos (fst (shl_align m e (-52))))%Z /\ (-52 <= e)%Z).
  { destruct (Z.compare_spec (-52) e) as [E|E|E]; try easy.
    - subst e. split; [|lia]. simpl.
      destruct (Pos.compare_cont Eq 4503599627370496 m) eqn:C; try easy.
      + apply Pos.compare_eq in C. subst m. simpl. lia.
      + change (4503599627370496 < m)%positive in C. simpl. lia.
    - split; [|lia].
      pose proof (valid_full_mantissa false m e V ltac:(lia)) as F.
      unfold shl_align. destruct (-52 - e)%Z eqn:D; try lia.
      simpl. pose proof (iter_xO_ge m p). lia. }
  destruct G as [G He].
  unfold SF64sub, SFsub. rewrite Z.min_r by lia.
  change (shl_align 4503599627370496 (-52) (-52)) with (4503599627370496%positive, (-52)%Z).
  simpl fst at 2. unfold cond_Zopp.
  set (a := fst (shl_align m e (-52))) in *.
  unfold binary_normalize.
  destruct (Zpos a - 4503599627370496)%Z eqn:D; try reflexivity; try lia.
  unfold binary_round.
  destruct (shl_align p (-52) _) as [mz ez].
  apply SFsign_is_clear, binary_round_aux_sign.
Qed.

Lemma sub_one_sign_clear (x : float) :
  (1 <=? x) = true -> sign_clear (x - 1) = true.
Proof.
  rewrite leb_spec. unfold sign_clear. rewrite sub_spec.
  apply SFsub_one_sign_clear, Prim2SF_valid.
Qed.

End Binary64.

(** * The small C library is a [Libm] *)

Lemma sample_exp_nan : SampleLibm.exp nan = nan.
Proof. reflexivity. Qed.

Lemma sample_exp_overflow (x : float) :
  (710 <=? x) = true -> SampleLibm.exp x = infinity.
Proof. intros H. unfold SampleLibm.exp. now rewrite H. Qed.

Lemma sample_exp_ge_1 (x : float) :
  (0 <=? x) = true -> (1 <=? SampleLibm.exp x) = true.
Proof.
  intros H. unfold SampleLibm.exp.
  destruct (710 <=? x); [reflexivity|]. rewrite H.
  destruct (1 <=? SampleLibm.exp_core x) eqn:E; [exact E | reflexivity].
Qed.

Lemma sample_pow_sign (x y : float) :
  sign_clear x = true -> sign_clear (SampleLibm.pow x y) = true.
Proof.
  intros H. unfold SampleLibm.pow. rewrite H. apply abs_sign_clear.
Qed.

Lemma sample_pow_inf_neg (y : float) :
  (y <? 0) = true -> SampleLibm.pow infinity y = 0.
Proof.
  intros H. unfold SampleLibm.pow, SampleLibm.pow_core.
  change (sign_clear infinity) with true.
  change (infinity =? infinity) with true.
  rewrite H. reflexivity.
Qed.

Definition sample_libm : Libm := {|
  c_exp := SampleLibm.exp;
  c_pow := SampleLibm.pow;
  c_exp_nan := sample_exp_nan;
  c_exp_overflow := sample_exp_overflow;
  c_exp_ge_1 := sample_exp_ge_1;
  c_pow_sign := sample_pow_sign;
  c_pow_inf_neg := sample_pow_inf_neg
|}.

(** * Arrays and operators *)

Section Arrays.

Variables f g h : float -> float -> float.

Lemma map2_map_l (k : float -> float) (xs ys : list float) :
  map2 g (map k xs) ys = map2 (fun x y => g (k x) y) xs ys.
Proof.
  revert ys. induction xs as [|x xs IH]; intros [|y ys]; simpl; auto.
  now rewrite IH.
Qed.

Lemma map2_length (xs ys : list float) :
  List.length xs = List.length ys -> List.length (map2 g xs ys) = List.length xs.
Proof.
  revert ys. induction xs as [|x xs IH]; intros [|y ys]; simpl; intros E;
    try discriminate E; auto.
Qed.

Lemma map2_diag (k : float -> float) (xs ys : list float) :
  map2 h (map k xs) (map2 g xs ys) = map2 (fun x y => h (k x) (g x y)) xs ys.
Proof.
  revert ys. induction xs as [|x xs IH]; intros [|y ys]; simpl; auto.
  now rewrite IH.
Qed.

Lemma map2_map_same (k k' : float -> float) (xs : list float) :
  map2 h (map k xs) (map k' xs) = map (fun x => h (k x) (k' x)) xs.
Proof. induction xs as [|x xs IH]; simpl; auto. now rewrite IH. Qed.

Lemma np_binop_scalar_r (a : ndarray) (y : float) :
  np_binop g a (Arr0 y) = Ok (np_map (fun x => g x y) a).
Proof.
  destruct a as [x|xs]; [reflexivity|].
  unfold np_binop, broadcast. simpl elems.
  destruct xs as [|x [|x' xs]]; reflexivity.
Qed.

Lemma np_binop_scalar_l (x : float) (b : ndarray) :
  np_binop g (Arr0 x) b = Ok (np_map (g x) b).
Proof.
  destruct b as [y|ys]; [reflexivity|].
  unfold np_binop, broadcast. simpl elems.
  destruct ys as [|y [|y' ys]]; reflexivity.
Qed.

Lemma np_binop_map_l (k : float -> float) (a b : ndarray) :
  np_binop g (np_map k a) b = np_binop (fun x y => g (k x) y) a b.
Proof.
  destruct a as [x|xs], b as [y|ys]; try reflexivity.
  - unfold np_binop, broadcast. simpl. rewrite length_map, map2_map_l.
    destruct xs as [|x [|x' xs]]; try reflexivity.
    simpl. now rewrite map_map.
  - unfold np_binop, broadcast. simpl. rewrite length_map, map2_map_l.
    destruct (List.length xs =? List.length ys)%nat; [reflexivity|].
    destruct xs as [|x [|x' xs]]; simpl; try reflexivity;
      destruct ys as [|y [|y' ys]]; simpl; try reflexivity;
      now rewrite map_map.
Qed.

Lemma np_binop_map (k : float -> float) (a b : ndarray) :
  fmap (np_map k) (np_binop g a b) = np_binop (fun x y => k (g x y)) a b.
Proof.
  assert (M2 : forall xs ys, map k (map2 g xs ys) = map2 (fun x y => k (g x y)) xs ys).
  { induction xs as [|x xs IH]; intros [|y ys]; simpl; auto. now rewrite IH. }
  assert (B : forall xs ys,
    fmap (np_map k) (fmap Arr1 (broadcast g xs ys))
    = fmap Arr1 (broadcast (fun x y => k (g x y)) xs ys)).
  { intros xs ys. unfold broadcast.
    destruct (List.length xs =? List.length ys)%nat;
      cbn [fmap bind np_map]; [now rewrite M2|].
    destruct xs as [|x [|x' xs]]; cbn [fmap bind np_map];
      destruct ys as [|y [|y' ys]]; cbn [fmap bind np_map];
      rewrite ?map_map; reflexivity. }
  destruct a as [x|xs], b as [y|ys]; try reflexivity; apply B.
Qed.

End Arrays.

(** An operand of the shape of [a] meets the broadcast of [a] and [b]. *)
Lemma np_binop_diag (g h : float -> float -> float) (k : float -> float)
    (a b : ndarray) :
  (r <- np_binop g a b ;; np_binop h (np_map k a) r)
  = np_binop (fun x y => h (k x) (g x y)) a b.
Proof.
  destruct a as [x|xs], b as [y|ys]; try reflexivity.
  - rewrite !np_binop_scalar_l. cbn [bind np_map].
    rewrite np_binop_scalar_l. cbn [np_map]. now rewrite map_map.
  - rewrite !np_binop_scalar_r. cbn [bind np_map].
    unfold np_binop, broadcast. cbn [elems].
    rewrite !length_map, Nat.eqb_refl. cbn [fmap bind].
    now rewrite map2_map_same.
  - change (np_binop g (Arr1 xs) (Arr1 ys)) with (fmap Arr1 (broadcast g xs ys)).
    change (np_binop (fun x y => h (k x) (g x y)) (Arr1 xs) (Arr1 ys))
      with (fmap Arr1 (broadcast (fun x y => h (k x) (g x y)) xs ys)).
    unfold broadcast.
    destruct (List.length xs =? List.length ys)%nat eqn:E.
    + apply Nat.eqb_eq in E. cbn [fmap bind np_map].
      unfold np_binop, broadcast. cbn [elems].
      rewrite length_map, map2_length, Nat.eqb_refl by exact E.
      cbn [fmap bind]. now rewrite map2_diag.
    + destruct xs as [|x [|x' xs]].
      * destruct ys as [|y [|y' ys]]; try reflexivity; discriminate E.
      * cbn [fmap bind np_map]. unfold np_binop, broadcast. cbn [elems map].
        rewrite length_map. change (List.length [k x]) with (List.length [x]).
        rewrite E. cbn [fmap bind]. now rewrite map_map.
      * destruct ys as [|y [|y' ys]]; try reflexivity.
        cbn [fmap bind np_map]. unfold np_binop, broadcast. cbn [elems].
        rewrite !length_map, Nat.eqb_refl. cbn [fmap bind].
        now rewrite map2_map_same.
Qed.

Lemma np_map_map (k k' : float -> float) (a : ndarray) :
  np_map k (np_map k' a) = np_map (fun x => k (k' x)) a.
Proof. destruct a; simpl; [reflexivity | now rewrite map_map]. Qed.

Lemma np_binop_chain (g : float -> float -> float) (A B : float -> float)
    (l t : ndarray) :
  (r <- np_binop g l t ;; np_binop mul (np_map A l) (np_map B r))
  = np_binop (fun x y => A x * B (g x y)) l t.
Proof.
  rewrite <- (np_binop_diag (fun x y => B (g x y)) mul A).
  rewrite <- np_binop_map.
  now destruct (np_binop g l t).
Qed.

Section OperatorFacts.

Context (M : Libm).

Lemma py_mul_float_arr (c : float) (a : ndarray) :
  py_mul (PyFloat c) (PyArr a) = Ok (PyArr (np_map (mul c) a)).
Proof.
  unfold py_mul, binop. cbn [np_coerce bind]. now rewrite np_binop_scalar_l.
Qed.

Lemma py_mul_arr_float (a : ndarray) (c : float) :
  py_mul (PyArr a) (PyFloat c) = Ok (PyArr (np_map (fun x => x * c) a)).
Proof.
  unfold py_mul, binop. cbn [np_coerce bind]. now rewrite np_binop_scalar_r.
Qed.

Lemma py_mul_scalar_arr (n : pyobj) (nf : float) (a : ndarray) :
  np_coerce n = Ok (Arr0 nf) ->
  py_mul n (PyArr a) = Ok (PyArr (np_map (mul nf) a)).
Proof.
  intros H. unfold py_mul, binop.
  destruct n; rewrite H; cbn [np_coerce bind]; now rewrite np_binop_scalar_l.
Qed.

Lemma py_truediv_arr_float (a : ndarray) (c : float) :
  py_truediv (PyArr a) (PyFloat c) = Ok (PyArr (np_map (fun x => x / c) a)).
Proof.
  unfold py_truediv, binop. cbn [np_coerce bind]. now rewrite np_binop_scalar_r.
Qed.

Lemma py_truediv_float_arr (c : float) (a : ndarray) :
  py_truediv (PyFloat c) (PyArr a) = Ok (PyArr (np_map (div c) a)).
Proof.
  unfold py_truediv, binop. cbn [np_coerce bind]. now rewrite np_binop_scalar_l.
Qed.

Lemma py_sub_arr_one (a : ndarray) :
  py_sub (PyArr a) (PyInt 1) = Ok (PyArr (np_map (fun x => x - 1) a)).
Proof.
  unfold py_sub, binop.
  change (np_coerce (PyInt 1)) with (Ok (Arr0 1)).
  cbn [np_coerce bind]. now rewrite np_binop_scalar_r.
Qed.

Lemma py_pow_arr (a : ndarray) (k : Z) (kf : float) :
  np_coerce (PyInt k) = Ok (Arr0 kf) ->
  py_pow M (PyArr a) k = Ok (PyArr (np_map (fun x => c_pow M x kf) a)).
Proof.
  intros H. unfold py_pow. rewrite H. cbn [bind]. now rewrite np_binop_scalar_r.
Qed.

(** [planck_law] on arrays is the formula on each pair of elements. *)
Lemma planck_law_arrays (l t : ndarray) (c1 c2 : float) (n : pyobj) (p nf : float) :
  py_pow M n (-2) = Ok (PyFloat p) ->
  np_coerce n = Ok (Arr0 nf) ->
  planck_law M (PyArr l) (PyArr t) (PyFloat c1) (PyFloat c2) n
  = fmap PyArr (np_binop (radiance M c1 c2 nf p) l t).
Proof.
  intros Hp Hn.
  unfold planck_law, lift1, lift2. cbn [as_float_array fmap bind].
  rewrite Hp. cbn [bind].
  change (py_mul (PyFloat c1) (PyFloat p)) with (Ok (PyFloat (c1 * p))).
  cbn [bind].
  rewrite (py_pow_arr l (-5) (-5)) by reflexivity. cbn [bind].
  rewrite py_mul_float_arr, np_map_map. cbn [bind].
  rewrite py_truediv_arr_float, np_map_map. cbn [bind].
  rewrite (py_mul_scalar_arr n nf l Hn). cbn [bind].
  change (py_mul (PyArr ?a) (PyArr ?b)) with (fmap PyArr (np_binop mul a b)).
  rewrite np_binop_map_l.
  change (np_binop (radiance M c1 c2 nf p) l t)
    with (np_binop (fun x y => (fun x => c1 * p * c_pow M x (-5) / np_pi) x
                               * (fun z => c_pow M (c_exp M (c2 / z) - 1) (-1))
                                   ((fun x y => nf * x * y) x y)) l t).
  rewrite <- np_binop_chain.
  destruct (np_binop (fun x y => nf * x * y) l t) as [r|e]; [|reflexivity].
  cbn [fmap bind].
  rewrite py_truediv_float_arr. cbn [bind].
  unfold np_exp. cbn [np_coerce bind]. rewrite np_map_map.
  rewrite py_sub_arr_one, np_map_map. cbn [bind].
  rewrite (py_pow_arr _ (-1) (-1)) by reflexivity. rewrite np_map_map.
  reflexivity.
Qed.

End OperatorFacts.

(** * [planck_law] *)

Section PlanckLaw.

Context (M : Libm).

Lemma planck_law_as_float_array (wavelength temperature c1 c2 n : pyobj)
    (l t : ndarray) :
  as_float_array wavelength = Ok l ->
  as_float_array temperature = Ok t ->
  planck_law M wavelength temperature c1 c2 n
  = planck_law M (PyArr l) (PyArr t) c1 c2 n.
Proof. intros Hl Ht. unfold planck_law. now rewrite Hl, Ht. Qed.

(** With the index of refraction [n = 1] of the module (a Python int),
    [n ** -2] is [1.0] whatever the C library. *)
Lemma py_pow_N : py_pow M (PyInt N) (-2) = Ok (PyFloat 1).
Proof. reflexivity. Qed.

(** A zero index of refraction, int or float, is a [ZeroDivisionError]. *)
Lemma py_pow_zero_int : py_pow M (PyInt 0) (-2) = Raise ZeroDivisionError.
Proof. reflexivity. Qed.

Lemma py_pow_zero_float : py_pow M (PyFloat 0) (-2) = Raise ZeroDivisionError.
Proof. reflexivity. Qed.

(** For an index of refraction that is a float greater than zero, finite
    and not one, [n ** -2] is [pow(n, -2.0)], or [OverflowError]. *)
Lemma py_pow_regular (n : float) :
  (0 <? n) = true -> is_infinity n = false -> (n =? 1) = false ->
  is_infinity (c_pow M n (-2)) = false ->
  py_pow M (PyFloat n) (-2) = Ok (PyFloat (c_pow M n (-2))).
Proof.
  intros Hpos Hinf H1 Hfin. unfold py_pow.
  change (float_of_int (-2)) with (Ok (-2)). cbn [bind].
  unfold float_pow. change (-2 =? 0) with false. cbv iota.
  rewrite (pos_not_nan n Hpos), Hinf, (pos_not_zero n Hpos).
  rewrite (sign_clear_not_neg n (pos_sign_clear n Hpos)).
  cbn [andb]. rewrite H1, Hfin. reflexivity.
Qed.

Lemma planck_law_zero_index (wavelength temperature c1 c2 : pyobj) (l t : ndarray) :
  as_float_array wavelength = Ok l ->
  as_float_array temperature = Ok t ->
  planck_law M wavelength temperature c1 c2 (PyInt 0) = Raise ZeroDivisionError.
Proof.
  intros Hl Ht. unfold planck_law, lift1, lift2. rewrite Hl, Ht.
  cbn [fmap bind]. now rewrite py_pow_zero_int.
Qed.

(** [planck_law] on two floats. *)
Lemma planck_law_scalar (wavelength temperature c1 c2 : float) (n : pyobj)
    (n_2 nf : float) :
  py_pow M n (-2) = Ok (PyFloat n_2) ->
  np_coerce n = Ok (Arr0 nf) ->
  planck_law M (PyFloat wavelength) (PyFloat temperature) (PyFloat c1) (PyFloat c2) n
  = fmap PyArr (np_binop (radiance M c1 c2 nf n_2) (Arr0 wavelength) (Arr0 temperature)).
Proof.
  intros Hp Hn.
  rewrite (planck_law_as_float_array _ _ _ _ _ (Arr0 wavelength) (Arr0 temperature))
    by reflexivity.
  apply (planck_law_arrays M _ _ _ _ _ _ _ Hp Hn).
Qed.

(** C1. For a wavelength, a temperature and constants [c1], [c2] that are
    floats and a Python number [n] of which [n ** -2] has a value,
    [planck_law] returns exactly
    [(c1 n^-2 wavelength^-5 / pi) (exp(c2 / (n wavelength temperature)) - 1)^-1],
    computed on binary64 from left to right. *)
Theorem planck_law_formula (wavelength temperature c1 c2 : float) (n : pyobj)
    (n_2 nf : float) :
  py_pow M n (-2) = Ok (PyFloat n_2) ->
  np_coerce n = Ok (Arr0 nf) ->
  planck_law M (PyFloat wavelength) (PyFloat temperature) (PyFloat c1) (PyFloat c2) n
  = Ok (PyArr (Arr0 (radiance M c1 c2 nf n_2 wavelength temperature))).
Proof.
  intros Hp Hn.
  rewrite (planck_law_as_float_array _ _ _ _ _ (Arr0 wavelength) (Arr0 temperature))
    by reflexivity.
  now rewrite (planck_law_arrays M _ _ _ _ _ _ _ Hp Hn).
Qed.

(** C10. [blackbody_spectral_radiance] is [planck_law]: the two agree on
    every wavelength, temperature, [c1], [c2] and [n]. *)
Theorem blackbody_spectral_radiance_planck_law
    (wavelength temperature c1 c2 n : pyobj) :
  blackbody_spectral_radiance M wavelength temperature c1 c2 n
  = planck_law M wavelength temperature c1 c2 n.
Proof. reflexivity. Qed.

(** C6. [planck_law] broadcasts: on an array of wavelengths and a scalar
    temperature, on a scalar wavelength and an array of temperatures, and on
    two arrays of the same length, the result is the array of the values of
    the scalar call on each pair of elements. *)
Theorem planck_law_broadcasts (c1 c2 : float) (n : pyobj) (n_2 nf : float) :
  py_pow M n (-2) = Ok (PyFloat n_2) ->
  np_coerce n = Ok (Arr0 nf) ->
  (forall w t,
      planck_law M (PyFloat w) (PyFloat t) (PyFloat c1) (PyFloat c2) n
      = Ok (PyArr (Arr0 (radiance M c1 c2 nf n_2 w t))))
  /\ (forall ws t,
        planck_law M (PyArr (Arr1 ws)) (PyFloat t) (PyFloat c1) (PyFloat c2) n
        = Ok (PyArr (Arr1 (map (fun w => radiance M c1 c2 nf n_2 w t) ws))))
  /\ (forall w ts,
        planck_law M (PyFloat w) (PyArr (Arr1 ts)) (PyFloat c1) (PyFloat c2) n
        = Ok (PyArr (Arr1 (map (fun t => radiance M c1 c2 nf n_2 w t) ts))))
  /\ (forall ws ts, List.length ws = List.length ts ->
        planck_law M (PyArr (Arr1 ws)) (PyArr (Arr1 ts)) (PyFloat c1) (PyFloat c2) n
        = Ok (PyArr (Arr1 (map2 (radiance M c1 c2 nf n_2) ws ts)))).
Proof.
  intros Hp Hn. repeat split.
  - intros w t. now rewrite (planck_law_scalar _ _ _ _ _ _ _ Hp Hn).
  - intros ws t.
    rewrite (planck_law_as_float_array _ _ _ _ _ (Arr1 ws) (Arr0 t)) by reflexivity.
    rewrite (planck_law_arrays M _ _ _ _ _ _ _ Hp Hn).
    now rewrite np_binop_scalar_r.
  - intros w ts.
    rewrite (planck_law_as_float_array _ _ _ _ _ (Arr0 w) (Arr1 ts)) by reflexivity.
    rewrite (planck_law_arrays M _ _ _ _ _ _ _ Hp Hn).
    now rewrite np_binop_scalar_l.
  - intros ws ts E.
    rewrite (planck_law_arrays M _ _ _ _ _ _ _ Hp Hn).
    unfold np_binop, broadcast. cbn [elems].
    apply Nat.eqb_eq in E. now rewrite E.
Qed.

(** *** Exceptions *)

Lemma np_binop_broadcastable (g : float -> float -> float) (a b : ndarray) :
  broadcastable a b = true -> exists r, np_binop g a b = Ok r.
Proof.
  destruct a as [x|xs], b as [y|ys]; intros H.
  - now eexists.
  - rewrite np_binop_scalar_l. now eexists.
  - rewrite np_binop_scalar_r. now eexists.
  - unfold np_binop, broadcast. cbn [elems]. cbn [broadcastable] in H.
    destruct (List.length xs =? List.length ys)%nat; [now eexists|].
    destruct xs as [|x [|x' xs]], ys as [|y [|y' ys]];
      try discriminate H; now eexists.
Qed.

(** A Python number of which [n ** -2] has a value is a scalar for NumPy
    when it is a float or an int of the 64-bit range. *)
Lemma np_coerce_number (n : pyobj) (n_2 : float) :
  py_pow M n (-2) = Ok (PyFloat n_2) ->
  (forall z, n = PyInt z -> (- 2 ^ 63 <= z < 2 ^ 64)%Z) ->
  exists nf, np_coerce n = Ok (Arr0 nf).
Proof.
  destruct n as [z|x|a]; intros Hp Hz.
  - specialize (Hz z eq_refl). unfold np_coerce.
    replace (- 2 ^ 63 <=? z)%Z with true by (symmetry; apply Z.leb_le; lia).
    replace (z <? 2 ^ 64)%Z with true by (symmetry; apply Z.ltb_lt; lia).
    now eexists.
  - now eexists.
  - rewrite (py_pow_arr M a (-2) (-2) eq_refl) in Hp. discriminate Hp.
Qed.

(** C5, as the code has it. For every wavelength and temperature that
    [as_float_array] accepts (floats of any value, zero, negative, infinite
    or NaN, and arrays of them) and that can be broadcast together, for all
    floats [c1] and [c2] and every Python number [n] of which [n ** -2] has
    a value, a float or an int of the 64-bit range from [-2^63] to
    [2^64 - 1], [planck_law] raises no exception and returns an array of
    floats. *)
Theorem planck_law_returns (wavelength temperature : pyobj) (l t : ndarray)
    (c1 c2 : float) (n : pyobj) (n_2 : float) :
  as_float_array wavelength = Ok l ->
  as_float_array temperature = Ok t ->
  broadcastable l t = true ->
  py_pow M n (-2) = Ok (PyFloat n_2) ->
  (forall z, n = PyInt z -> (- 2 ^ 63 <= z < 2 ^ 64)%Z) ->
  exists p, planck_law M wavelength temperature (PyFloat c1) (PyFloat c2) n
            = Ok (PyArr p).
Proof.
  intros Hl Ht Hb Hp Hz.
  destruct (np_coerce_number n n_2 Hp Hz) as [nf Hn].
  rewrite (planck_law_as_float_array _ _ _ _ _ l t Hl Ht).
  rewrite (planck_law_arrays M _ _ _ _ _ _ _ Hp Hn).
  destruct (np_binop_broadcastable (radiance M c1 c2 nf n_2) l t Hb) as [r Hr].
  exists r. now rewrite Hr.
Qed.

(** *** Sign *)

Lemma radiance_sign_clear (wavelength temperature : float) :
  (0 <? wavelength) = true -> (0 <? temperature) = true ->
  sign_clear (radiance M C1 C2 1 1 wavelength temperature) = true.
Proof.
  intros Hw Ht. apply pos_sign_clear in Hw, Ht.
  unfold radiance. apply mul_sign_clear.
  - apply div_sign_clear; [|reflexivity].
    apply mul_sign_clear; [reflexivity|]. now apply c_pow_sign.
  - apply c_pow_sign.
    assert (Hh : sign_clear (C2 / (1 * wavelength * temperature)) = true).
    { apply div_sign_clear; [reflexivity|].
      apply mul_sign_clear; [|exact Ht].
      apply mul_sign_clear; [reflexivity | exact Hw]. }
    destruct (sign_clear_cases _ Hh) as [E|E].
    + rewrite E, c_exp_nan. reflexivity.
    + now apply sub_one_sign_clear, c_exp_ge_1.
Qed.

(** C4, as the code has it. For every wavelength > 0 and temperature > 0,
    [planck_law] with the constants of the module returns a float that is
    not negative: its sign is clear or it is a NaN, so that it is [+0], a
    positive number, [+inf] or NaN. *)
Theorem planck_law_not_negative (wavelength temperature : float) :
  (0 <? wavelength) = true ->
  (0 <? temperature) = true ->
  exists p,
    planck_law M (PyFloat wavelength) (PyFloat temperature)
      (PyFloat C1) (PyFloat C2) (PyInt N) = Ok (PyArr (Arr0 p))
    /\ sign_clear p = true
    /\ (p <? 0) = false.
Proof.
  intros Hw Ht. exists (radiance M C1 C2 1 1 wavelength temperature).
  pose proof (radiance_sign_clear wavelength temperature Hw Ht) as S.
  split; [|split].
  - now rewrite (planck_law_scalar _ _ _ _ (PyInt N) 1 1).
  - exact S.
  - now apply sign_clear_not_neg.
Qed.

(** Where [exp] overflows the result is zero or a NaN. *)
Lemma radiance_exp_overflow (c1 c2 n n_2 wavelength temperature : float) :
  (710 <=? c2 / (n * wavelength * temperature)) = true ->
  (0 <? radiance M c1 c2 n n_2 wavelength temperature) = false.
Proof.
  intros H. unfold radiance. rewrite (c_exp_overflow M _ H).
  change (infinity - 1) with infinity.
  rewrite (c_pow_inf_neg M (-1)) by reflexivity.
  apply mul_zero_not_pos.
Qed.

(** At 500 nm and 10 K, [exp(c2 / (n l t))] overflows. *)
Lemma planck_law_500nm_10K :
  exists p,
    planck_law M (PyFloat 500e-9) (PyFloat 10) (PyFloat C1) (PyFloat C2) (PyInt N)
    = Ok (PyArr (Arr0 p))
    /\ (0 <? p) = false.
Proof.
  exists (radiance M C1 C2 1 1 500e-9 10). split.
  - now rewrite (planck_law_scalar _ _ _ _ (PyInt N) 1 1).
  - now apply radiance_exp_overflow.
Qed.

End PlanckLaw.

(** C4, as the specification has it, fails: at 500 nm and 10 K, whatever
    the C library, [planck_law] returns a float that is not strictly
    positive. *)
Lemma planck_law_positive_fails :
  ~ (forall (M : Libm) (wavelength temperature : float),
        (0 <? wavelength) = true ->
        (0 <? temperature) = true ->
        exists p,
          planck_law M (PyFloat wavelength) (PyFloat temperature)
            (PyFloat C1) (PyFloat C2) (PyInt N) = Ok (PyArr (Arr0 p))
          /\ (0 <? p) = true)
  /\ (0 <? 500e-9) = true
  /\ (0 <? 10) = true
  /\ forall M : Libm,
       exists p,
         planck_law M (PyFloat 500e-9) (PyFloat 10)
           (PyFloat C1) (PyFloat C2) (PyInt N) = Ok (PyArr (Arr0 p))
         /\ (0 <? p) = false.
Proof.
  split; [|split; [reflexivity|split; [reflexivity|exact planck_law_500nm_10K]]].
  intros H.
  destruct (H sample_libm 500e-9 10 eq_refl eq_refl) as [p [E P]].
  destruct (planck_law_500nm_10K sample_libm) as [q [E' Q]].
  rewrite E in E'. injection E' as ->. congruence.
Qed.

(** C5, as the specification has it, fails: for the index of refraction
    [n = 0], whatever the C library, [n ** -2] raises [ZeroDivisionError]. *)
Lemma planck_law_raises :
  ~ (forall (M : Libm) (wavelength temperature c1 c2 n : pyobj),
        exists p, planck_law M wavelength temperature c1 c2 n = Ok p)
  /\ forall M : Libm,
       planck_law M (PyFloat 500e-9) (PyFloat 5500) (PyFloat C1) (PyFloat C2) (PyInt 0)
       = Raise ZeroDivisionError.
Proof.
  assert (R : forall M : Libm,
             planck_law M (PyFloat 500e-9) (PyFloat 5500)
               (PyFloat C1) (PyFloat C2) (PyInt 0)
             = Raise ZeroDivisionError).
  { intros M. now apply (planck_law_zero_index M _ _ _ _ (Arr0 500e-9) (Arr0 5500)). }
  split; [|exact R].
  intros H.
  destruct (H sample_libm (PyFloat 500e-9) (PyFloat 5500)
              (PyFloat C1) (PyFloat C2) (PyInt 0)) as [p E].
  rewrite R in E. discriminate E.
Qed.

(** * Order on binary64 *)

Lemma SFltb_trans (x y z : spec_float) :
  SFltb x y = true -> SFltb y z = true -> SFltb x z = true.
Proof.
  unfold SFltb, SFcompare.
  destruct x as [[]|[]| |[] m1 e1], y as [[]|[]| |[] m2 e2], z as [[]|[]| |[] m3 e3];
    try easy;
    destruct (Z.compare_spec e1 e2), (Z.compare_spec e2 e3), (Z.compare_spec e1 e3);
    try easy; try lia; subst;
    rewrite ?Pos.compare_cont_spec; simpl;
    destruct (Pos.compare_spec m1 m2), (Pos.compare_spec m2 m3),
      (Pos.compare_spec m1 m3); simpl; try easy; lia.
Qed.

Lemma ltb_trans (x y z : float) :
  (x <? y) = true -> (y <? z) = true -> (x <? z) = true.
Proof. rewrite !ltb_spec. apply SFltb_trans. Qed.

Lemma ltb_neq (x y : float) : (x <? y) = true -> (x =? y) = false.
Proof.
  rewrite ltb_spec, FloatAxioms.eqb_spec. unfold SFltb, SFeqb.
  now destruct (SFcompare (Prim2SF x) (Prim2SF y)) as [[]|].
Qed.

(** * Dictionaries *)

Lemma dict_set_fresh (d : dict) (k v : float) :
  fresh k d -> dict_set d k v = d ++ [(k, v)].
Proof.
  induction d as [|[k' v'] d IH]; intros F; [reflexivity|].
  inversion F as [|? ? Hk Hd]; subst. simpl in *.
  rewrite Hk. now rewrite IH.
Qed.

Lemma fold_dict_set_sorted (v : float -> float) (ws : list float) (d : dict) :
  StronglySorted (fun a b => (a <? b) = true) ws ->
  Forall (fun w => fresh w d) ws ->
  fold_left (fun d kv => dict_set d (fst kv) (snd kv)) (map (fun w => (w, v w)) ws) d
  = d ++ map (fun w => (w, v w)) ws.
Proof.
  revert d. induction ws as [|w ws IH]; intros d S F; simpl.
  - now rewrite app_nil_r.
  - inversion S as [|? ? S' Hw]; subst. inversion F as [|? ? Fw F']; subst.
    rewrite dict_set_fresh by exact Fw.
    rewrite IH; [now rewrite <- app_assoc | exact S' |].
    rewrite Forall_forall in *. intros w' Hin. unfold fresh in *.
    apply Forall_app. split; [now apply F'|].
    constructor; [|constructor]. simpl. now apply ltb_neq, Hw.
Qed.

(** The dictionary of increasing keys is the list of its items. *)
Lemma dict_of_pairs_sorted (v : float -> float) (ws : list float) :
  StronglySorted (fun a b => (a <? b) = true) ws ->
  dict_of_pairs (map (fun w => (w, v w)) ws) = map (fun w => (w, v w)) ws.
Proof.
  intros S. unfold dict_of_pairs. rewrite fold_dict_set_sorted; auto.
  apply Forall_forall. intros w _. constructor.
Qed.

Lemma dict_get_sorted (v : float -> float) (ws : list float) (w : float) :
  StronglySorted (fun a b => (a <? b) = true) ws ->
  Forall (fun w => is_nan w = false) ws ->
  In w ws ->
  dict_get (map (fun w => (w, v w)) ws) w = Some (v w).
Proof.
  induction ws as [|w' ws IH]; intros S F Hin; [easy|].
  inversion S as [|? ? S' Hw]; subst. inversion F as [|? ? Fw F']; subst.
  simpl. destruct Hin as [->|Hin].
  - unfold is_nan in Fw. apply negb_false_iff in Fw. now rewrite Fw.
  - rewrite Forall_forall in Hw. rewrite (ltb_neq _ _ (Hw _ Hin)). now apply IH.
Qed.

Lemma combine_map_same (k : float -> float) (ws : list float) :
  combine ws (map k ws) = map (fun w => (w, k w)) ws.
Proof. induction ws as [|w ws IH]; simpl; [reflexivity | now rewrite IH]. Qed.

(** * [sd_blackbody] *)

Section SdBlackbody.

Context (M : Libm).
Context {SpectralShape : Type} (range : SpectralShape -> list float).
Context (float_str : float -> string) (array_str : ndarray -> string).

#[local] Abbreviation sd_call := (sd_blackbody M range float_str array_str).
#[local] Abbreviation format := (py_format float_str array_str).

(** The distribution that [sd_blackbody] returns for a temperature that is
    a number. *)
Lemma sd_blackbody_eq (temperature : pyobj) (shape : SpectralShape)
    (c1 c2 : float) (n : pyobj) (t n_2 nf : float) :
  as_float_array temperature = Ok (Arr0 t) ->
  py_pow M n (-2) = Ok (PyFloat n_2) ->
  np_coerce n = Ok (Arr0 nf) ->
  sd_call temperature shape (PyFloat c1) (PyFloat c2) n
  = Ok (SpectralDistribution_init
          (dict_of_pairs
             (map (fun w => (w, radiance M c1 c2 nf n_2 (w * 1e-9) t)) (range shape)))
          (format temperature ++ "K Blackbody")).
Proof.
  intros Ht Hp Hn. unfold sd_blackbody.
  rewrite py_mul_arr_float. cbn [bind np_map].
  rewrite (planck_law_as_float_array M
             (PyArr (Arr1 (map (fun x => x * 1e-9) (range shape)))) _ _ _ _
             _ (Arr0 t) eq_refl Ht).
  rewrite (planck_law_arrays M _ _ _ _ _ _ _ Hp Hn).
  rewrite np_binop_scalar_r. cbn [fmap bind np_map py_zip].
  now rewrite map_map, combine_map_same.
Qed.

(** C2. For a temperature that is a number and a shape whose range is
    [w_1 < ... < w_k], [sd_blackbody] returns a distribution whose table has
    the keys [w_1, ..., w_k] and maps each [w_i] to the value of
    [planck_law] at [w_i * 1e-9]. *)
Theorem sd_blackbody_table (temperature : pyobj) (shape : SpectralShape)
    (c1 c2 : float) (n : pyobj) (t n_2 nf : float) :
  as_float_array temperature = Ok (Arr0 t) ->
  py_pow M n (-2) = Ok (PyFloat n_2) ->
  np_coerce n = Ok (Arr0 nf) ->
  Sorted (fun a b => (a <? b) = true) (range shape) ->
  Forall (fun w => is_nan w = false) (range shape) ->
  exists sd,
    sd_call temperature shape (PyFloat c1) (PyFloat c2) n = Ok sd
    /\ map fst (sd_data sd) = range shape
    /\ forall w, In w (range shape) ->
         exists p,
           planck_law M (PyFloat (w * 1e-9)) temperature (PyFloat c1) (PyFloat c2) n
           = Ok (PyArr (Arr0 p))
           /\ dict_get (sd_data sd) w = Some p.
Proof.
  intros Ht Hp Hn S F.
  apply Sorted_StronglySorted in S; [|exact ltb_trans].
  eexists.
  split; [exact (sd_blackbody_eq temperature shape c1 c2 n t n_2 nf Ht Hp Hn)|].
  cbn [sd_data SpectralDistribution_init].
  rewrite dict_of_pairs_sorted by exact S. split.
  - rewrite map_map. cbn [fst]. apply map_id.
  - intros w Hin. eexists. split.
    + rewrite (planck_law_as_float_array M (PyFloat (w * 1e-9)) _ _ _ _
                 (Arr0 (w * 1e-9)) (Arr0 t) eq_refl Ht).
      rewrite (planck_law_arrays M _ _ _ _ _ _ _ Hp Hn). reflexivity.
    + now rewrite (dict_get_sorted
                     (fun w => radiance M c1 c2 nf n_2 (w * 1e-9) t) _ _ S F Hin).
Qed.

(** C8. For a temperature that is a number, the distribution that
    [sd_blackbody] returns has the name made of the temperature, as
    [format] writes it, and ["K Blackbody"]. *)
Theorem sd_blackbody_name (temperature : pyobj) (shape : SpectralShape)
    (c1 c2 : float) (n : pyobj) (t n_2 nf : float) :
  as_float_array temperature = Ok (Arr0 t) ->
  py_pow M n (-2) = Ok (PyFloat n_2) ->
  np_coerce n = Ok (Arr0 nf) ->
  exists sd,
    sd_call temperature shape (PyFloat c1) (PyFloat c2) n = Ok sd
    /\ sd_name sd = (format temperature ++ "K Blackbody")%string.
Proof.
  intros Ht Hp Hn. eexists.
  split; [exact (sd_blackbody_eq temperature shape c1 c2 n t n_2 nf Ht Hp Hn)|].
  reflexivity.
Qed.

(** C9. For a temperature that is a number and a shape whose range is
    empty, [sd_blackbody] raises nothing and returns a distribution with no
    item. *)
Theorem sd_blackbody_empty (temperature : pyobj) (shape : SpectralShape)
    (c1 c2 : float) (n : pyobj) (t n_2 nf : float) :
  as_float_array temperature = Ok (Arr0 t) ->
  py_pow M n (-2) = Ok (PyFloat n_2) ->
  np_coerce n = Ok (Arr0 nf) ->
  range shape = [] ->
  exists sd,
    sd_call temperature shape (PyFloat c1) (PyFloat c2) n = Ok sd
    /\ sd_data sd = [].
Proof.
  intros Ht Hp Hn E. eexists.
  split; [exact (sd_blackbody_eq temperature shape c1 c2 n t n_2 nf Ht Hp Hn)|].
  cbn [sd_data SpectralDistribution_init]. now rewrite E.
Qed.

End SdBlackbody.

(** * The value of a float *)

Lemma digits2_pos_upper (m : positive) :
  (Zpos m < 2 ^ Zpos (digits2_pos m))%Z.
Proof.
  induction m as [m IH|m IH|]; simpl digits2_pos.
  - rewrite Pos2Z.inj_succ, Z.pow_succ_r by lia. lia.
  - rewrite Pos2Z.inj_succ, Z.pow_succ_r by lia. lia.
  - simpl. lia.
Qed.

Lemma valid_mantissa_upper (s : bool) (m : positive) (e : Z) :
  valid_binary (S754_finite s m e) = true -> (Zpos m < 2 ^ 53)%Z.
Proof.
  unfold SpecFloat.valid_binary, SpecFloat.bounded, SpecFloat.canonical_mantissa,
    SpecFloat.fexp, SpecFloat.emin.
  change prec with 53%Z. change emax with 1024%Z.
  intros H. apply andb_prop in H as [H _]. apply Z.eqb_eq in H.
  assert (D : (Zpos (digits2_pos m) <= 53)%Z) by lia.
  pose proof (digits2_pos_upper m) as U.
  apply Z.lt_le_trans with (1 := U). apply Z.pow_le_mono_r; lia.
Qed.

Section Values.

#[local] Open Scope R_scope.

Lemma powerRZ_2_IZR (d : Z) : (0 <= d)%Z -> powerRZ 2 d = IZR (2 ^ d).
Proof.
  intros H. rewrite <- (Z2Nat.id d H), <- pow_powerRZ. apply pow_IZR.
Qed.

Lemma powerRZ_2_shift (d e : Z) :
  (0 <= d)%Z -> powerRZ 2 (d + e) = IZR (2 ^ d) * powerRZ 2 e.
Proof.
  intros H. rewrite powerRZ_add by lra. now rewrite powerRZ_2_IZR.
Qed.

(** A float whose value lies between [lo 2^e] and [(lo + n) 2^e], for a
    full mantissa [lo], is one of the [n] floats of exponent [e] from the
    mantissa [lo] on. *)
Lemma F2R_binade (x : float) (e lo : Z) (n : nat) :
  (2 ^ 52 <= lo)%Z -> (lo + Z.of_nat n <= 2 ^ 53)%Z -> (-1074 <= e)%Z ->
  IZR lo * powerRZ 2 e <= F2R x < IZR (lo + Z.of_nat n) * powerRZ 2 e ->
  In x (binade e lo n).
Proof.
  intros Hlo Hhi He [L U].
  assert (P : 0 < powerRZ 2 e) by (apply powerRZ_lt; lra).
  assert (Plo : 0 < IZR lo).
  { apply IZR_lt. pose proof (Z.pow_pos_nonneg 2 52). lia. }
  unfold F2R in L, U. pose proof (Prim2SF_valid x) as V.
  destruct (Prim2SF x) as [s|s| |s m ex] eqn:E; cbn [SF2R] in L, U;
    try (exfalso; nra).
  assert (Px : 0 < powerRZ 2 ex) by (apply powerRZ_lt; lra).
  pose proof (valid_mantissa_upper _ _ _ V) as Mu.
  assert (S : s = false).
  { destruct s; [|reflexivity]. exfalso. cbn [cond_Zopp] in L.
    change (cond_Zopp true (Z.pos m)) with (- Z.pos m)%Z in L.
    rewrite opp_IZR in L.
    assert (N : 0 < IZR (Z.pos m)) by (apply IZR_lt; lia).
    pose proof (Rmult_lt_0_compat _ _ Plo P).
    pose proof (Rmult_lt_0_compat _ _ N Px). lra. }
  subst s. cbn [cond_Zopp] in L, U.
  assert (Ex : ex = e).
  { destruct (Z.lt_trichotomy ex e) as [C|[C|C]]; [|exact C|]; exfalso.
    - replace e with ((e - ex) + ex)%Z in L by lia.
      rewrite powerRZ_2_shift in L by lia.
      assert (T : IZR lo * IZR (2 ^ (e - ex)) <= IZR (Z.pos m)) by nra.
      rewrite <- mult_IZR in T. apply le_IZR in T.
      assert (2 ^ 1 <= 2 ^ (e - ex))%Z by (apply Z.pow_le_mono_r; lia).
      nia.
    - replace ex with ((ex - e) + e)%Z in U by lia.
      rewrite powerRZ_2_shift in U by lia.
      assert (T : IZR (Z.pos m) * IZR (2 ^ (ex - e)) < IZR (lo + Z.of_nat n)) by nra.
      rewrite <- mult_IZR in T. apply lt_IZR in T.
      assert (2 ^ 1 <= 2 ^ (ex - e))%Z by (apply Z.pow_le_mono_r; lia).
      pose proof (valid_full_mantissa _ _ _ V ltac:(lia)) as Ml.
      nia. }
  subst ex.
  assert (Lm : (lo <= Z.pos m)%Z) by (apply le_IZR; nra).
  assert (Um : (Z.pos m < lo + Z.of_nat n)%Z) by (apply lt_IZR; nra).
  unfold binade. apply in_map_iff. exists (Z.to_nat (Z.pos m - lo)). split.
  - rewrite Z2Nat.id by lia.
    replace (lo + (Z.pos m - lo))%Z with (Z.pos m) by lia.
    cbn [Z.to_pos]. rewrite <- E. apply SF2Prim_Prim2SF.
  - apply in_seq. lia.
Qed.


Lemma accurate_bounds (x : float) (v a b : R) :
  0 < a -> a <= v <= b -> accurate x v ->
  a * (1 - accuracy) <= F2R x <= b * (1 + accuracy).
Proof.
  unfold accurate, accuracy. intros Ha [L U] H.
  rewrite (Rabs_pos_eq v) in H by lra.
  unfold Rabs in H. destruct (Rcase_abs (F2R x - v)) as [C|C].
  assert (E : 0 < / 2 ^ 50 < 1).
  { split; [apply Rinv_0_lt_compat; lra|].
    rewrite <- Rinv_1. apply Rinv_lt_contravar; lra. }
  - split; nra.
  - split; nra.
Qed.

(** The value of a float given by its digits. *)
Ltac F2R_compute :=
  repeat match goal with
    | |- context [F2R ?c] =>
        let v := eval vm_compute in (Prim2SF c) in
        change (F2R c) with (SF2R v)
    end;
  cbn [SF2R cond_Zopp powerRZ];
  repeat match goal with
    | |- context [Pos.to_nat ?p] =>
        let v := eval vm_compute in (Pos.to_nat p) in
        change (Pos.to_nat p) with v
    end.

(** ** Bounds on [exp] *)

Lemma exp_alt_bounds (y : R) (N : nat) :
  0 <= y <= 1 ->
  sum_f_R0 (tg_alt (fun i => y ^ i / INR (fact i))) (S (2 * N)) <= exp (- y)
  <= sum_f_R0 (tg_alt (fun i => y ^ i / INR (fact i))) (2 * N).
Proof.
  intros Hy.
  apply alternated_series_ineq.
  - intros n. simpl pow. rewrite fact_simpl, mult_INR.
    assert (F := INR_fact_lt_0 n).
    assert (P : 0 <= y ^ n) by (apply pow_le; lra).
    assert (S1 : 1 <= INR (S n)) by (rewrite S_INR; pose proof (pos_INR n); lra).
    unfold Rdiv. rewrite Rinv_mult.
    assert (I : 0 < / INR (fact n)) by now apply Rinv_0_lt_compat.
    assert (I1 : 0 < / INR (S n) <= 1).
    { split; [apply Rinv_0_lt_compat; lra|].
      apply Rle_trans with (/ 1); [apply Rinv_le_contravar; lra | rewrite Rinv_1; lra]. }
    replace (y * y ^ n * (/ INR (S n) * / INR (fact n)))
      with ((y * / INR (S n)) * (y ^ n * / INR (fact n))) by ring.
    assert (A : 0 <= y ^ n * / INR (fact n)) by (apply Rmult_le_pos; lra).
    assert (B : y * / INR (S n) <= 1) by nra.
    nra.
  - apply cv_speed_pow_fact.
  - unfold exp. destruct (exist_exp (- y)) as [l Hl]. simpl.
    unfold exp_in, infinite_sum in Hl. intros eps He.
    destruct (Hl eps He) as [n0 Hn0]. exists n0. intros n Hn.
    replace (sum_f_R0 (tg_alt (fun i => y ^ i / INR (fact i))) n)
      with (sum_f_R0 (fun i => / INR (fact i) * (- y) ^ i) n); [now apply Hn0|].
    apply sum_eq. intros i _. unfold tg_alt.
    replace (- y) with (-1 * y) by ring. rewrite Rpow_mult_distr. field.
    apply INR_fact_neq_0.
Qed.

Lemma INR_fact (n : nat) : INR (fact n) = IZR (Zfact n).
Proof.
  induction n as [|n IH]; [reflexivity|].
  rewrite fact_simpl, mult_INR, IH. cbn [Zfact].
  now rewrite mult_IZR, <- INR_IZR_INZ.
Qed.

Ltac eval_Zfact :=
  repeat match goal with
         | |- context [Zfact ?n] =>
             let v := eval vm_compute in (Zfact n) in change (Zfact n) with v
         end.

(** One step of the evaluation of [1 - y/1 (1 - y/2 (1 - ...))] on
    intervals. *)
Lemma horner_step (y t ylo yhi l u l' u' k : R) :
  0 <= ylo <= y -> y <= yhi -> 0 <= l <= t -> t <= u -> 0 < k ->
  l' <= 1 - yhi * u / k -> 1 - ylo * l / k <= u' ->
  l' <= 1 - y / k * t <= u'.
Proof.
  intros [Y0 Y1] Y2 [T0 T1] T2 K L U.
  assert (I : 0 < / k) by now apply Rinv_0_lt_compat.
  assert (P1 : ylo * l <= y * t) by (apply Rmult_le_compat; lra).
  assert (P2 : y * t <= yhi * u) by (apply Rmult_le_compat; lra).
  assert (Q1 : ylo * l * / k <= y * t * / k) by (apply Rmult_le_compat_r; lra).
  assert (Q2 : y * t * / k <= yhi * u * / k) by (apply Rmult_le_compat_r; lra).
  unfold Rdiv in *. replace (y * / k * t) with (y * t * / k) by ring. lra.
Qed.

Lemma exp_m654 :
  0.51996176445726180945073428 <= exp (- (5890708312600609 / 2 ^ 53))
  <= 0.51996176445726180945330993.
Proof.
  pose proof (exp_alt_bounds (5890708312600609 / 2 ^ 53) 9 ltac:(lra)) as [L U].
  assert (Y : 0.65400000000000002575717417 <= 5890708312600609 / 2 ^ 53 <= 0.65400000000000002575717418) by lra.
  set (y := 5890708312600609 / 2 ^ 53) in *.
  split.
  - apply Rle_trans with (2 := L). clear L U.
    pose (s19 := 1 - y / 19).
    assert (Bs19 : 0.9655789473684210512759382 <= s19 <= 0.96557894736842105127593821) by (unfold s19; lra).
    pose (s18 := 1 - y / 18 * s19).
    assert (Bs18 : 0.96491729824561403375527507 <= s18 <= 0.96491729824561403375527508)
      by (apply (horner_step y s19 0.65400000000000002575717417 0.65400000000000002575717418 0.9655789473684210512759382 0.96557894736842105127593821 _ _ 18); lra).
    pose (s17 := 1 - y / 17 * s18).
    assert (Bs17 : 0.96287906393808049394532395 <= s17 <= 0.96287906393808049394532396)
      by (apply (horner_step y s18 0.65400000000000002575717417 0.65400000000000002575717418 0.96491729824561403375527507 0.96491729824561403375527508 _ _ 17); lra).
    pose (s16 := 1 - y / 16 * s17).
    assert (Bs16 : 0.96064231826153095825991964 <= s16 <= 0.96064231826153095825991965)
      by (apply (horner_step y s17 0.65400000000000002575717417 0.65400000000000002575717418 0.96287906393808049394532395 0.96287906393808049394532396 _ _ 16); lra).
    pose (s15 := 1 - y / 15 * s16).
    assert (Bs15 : 0.9581159949237972485703054 <= s15 <= 0.95811599492379724857030541)
      by (apply (horner_step y s16 0.65400000000000002575717417 0.65400000000000002575717418 0.96064231826153095825991964 0.96064231826153095825991965 _ _ 15); lra).
    pose (s14 := 1 - y / 14 * s15).
    assert (Bs14 : 0.95524229566570261248261854 <= s14 <= 0.95524229566570261248261856)
      by (apply (horner_step y s15 0.65400000000000002575717417 0.65400000000000002575717418 0.9581159949237972485703054 0.95811599492379724857030541 _ _ 14); lra).
    pose (s13 := 1 - y / 13 * s14).
    assert (Bs13 : 0.95194396451035618975630963 <= s13 <= 0.95194396451035618975630964)
      by (apply (horner_step y s14 0.65400000000000002575717417 0.65400000000000002575717418 0.95524229566570261248261854 0.95524229566570261248261856 _ _ 13); lra).
    pose (s12 := 1 - y / 12 * s13).
    assert (Bs12 : 0.94811905393418558561499891 <= s12 <= 0.94811905393418558561499892)
      by (apply (horner_step y s13 0.65400000000000002575717417 0.65400000000000002575717418 0.95194396451035618975630963 0.95194396451035618975630964 _ _ 12); lra).
    pose (s11 := 1 - y / 11 * s12).
    assert (Bs11 : 0.94363001261154932750790209 <= s11 <= 0.94363001261154932750790211)
      by (apply (horner_step y s12 0.65400000000000002575717417 0.65400000000000002575717418 0.94811905393418558561499891 0.94811905393418558561499892 _ _ 11); lra).
    pose (s10 := 1 - y / 10 * s11).
    assert (Bs10 : 0.93828659717520467155045894 <= s10 <= 0.93828659717520467155045895)
      by (apply (horner_step y s11 0.65400000000000002575717417 0.65400000000000002575717418 0.94363001261154932750790209 0.94363001261154932750790211 _ _ 10); lra).
    pose (s9 := 1 - y / 9 * s10).
    assert (Bs9 : 0.93181784060526845784870983 <= s9 <= 0.93181784060526845784870984)
      by (apply (horner_step y s10 0.65400000000000002575717417 0.65400000000000002575717418 0.93828659717520467155045894 0.93828659717520467155045895 _ _ 9); lra).
    pose (s8 := 1 - y / 8 * s9).
    assert (Bs8 : 0.92382389153051930057074366 <= s8 <= 0.92382389153051930057074367)
      by (apply (horner_step y s9 0.65400000000000002575717417 0.65400000000000002575717418 0.93181784060526845784870983 0.93181784060526845784870984 _ _ 8); lra).
    pose (s7 := 1 - y / 7 * s8).
    assert (Bs7 : 0.91368845356272005051880582 <= s7 <= 0.91368845356272005051880583)
      by (apply (horner_step y s8 0.65400000000000002575717417 0.65400000000000002575717418 0.92382389153051930057074366 0.92382389153051930057074367 _ _ 7); lra).
    pose (s6 := 1 - y / 6 * s7).
    assert (Bs6 : 0.90040795856166351057111139 <= s6 <= 0.9004079585616635105711114)
      by (apply (horner_step y s7 0.65400000000000002575717417 0.65400000000000002575717418 0.91368845356272005051880582 0.91368845356272005051880583 _ _ 6); lra).
    pose (s5 := 1 - y / 5 * s6).
    assert (Bs5 : 0.8822266390201344081789057 <= s5 <= 0.88222663902013440817890571)
      by (apply (horner_step y s6 0.65400000000000002575717417 0.65400000000000002575717418 0.90040795856166351057111139 0.9004079585616635105711114 _ _ 5); lra).
    pose (s4 := 1 - y / 4 * s5).
    assert (Bs4 : 0.85575594452020801858183261 <= s4 <= 0.85575594452020801858183262)
      by (apply (horner_step y s5 0.65400000000000002575717417 0.65400000000000002575717418 0.8822266390201344081789057 0.88222663902013440817890571 _ _ 4); lra).
    pose (s3 := 1 - y / 3 * s4).
    assert (Bs3 : 0.81344520409459464460187551 <= s3 <= 0.81344520409459464460187553)
      by (apply (horner_step y s4 0.65400000000000002575717417 0.65400000000000002575717418 0.85575594452020801858183261 0.85575594452020801858183262 _ _ 3); lra).
    pose (s2 := 1 - y / 2 * s3).
    assert (Bs2 : 0.73400341826106754073916179 <= s2 <= 0.73400341826106754073916181)
      by (apply (horner_step y s3 0.65400000000000002575717417 0.65400000000000002575717418 0.81344520409459464460187551 0.81344520409459464460187553 _ _ 2); lra).
    pose (s1 := 1 - y / 1 * s2).
    assert (Bs1 : 0.51996176445726180945073428 <= s1 <= 0.51996176445726180945073431)
      by (apply (horner_step y s2 0.65400000000000002575717417 0.65400000000000002575717418 0.73400341826106754073916179 0.73400341826106754073916181 _ _ 1); lra).
    replace (sum_f_R0 (tg_alt (fun i => y ^ i / INR (fact i))) (S (2 * 9))) with s1;
      [lra|].
    unfold s1, s2, s3, s4, s5, s6, s7, s8, s9, s10, s11, s12, s13, s14, s15, s16, s17, s18, s19.
    change (S (2 * 9)) with 19%nat. cbv [sum_f_R0 tg_alt].
    repeat rewrite INR_fact. eval_Zfact. field.
  - apply Rle_trans with (1 := U). clear L U.
    pose (t18 := 1 - y / 18).
    assert (Bt18 : 0.96366666666666666523571254 <= t18 <= 0.96366666666666666523571255) by (unfold t18; lra).
    pose (t17 := 1 - y / 17 * t18).
    assert (Bt17 : 0.96292717647058823388908904 <= t17 <= 0.96292717647058823388908905)
      by (apply (horner_step y t18 0.65400000000000002575717417 0.65400000000000002575717418 0.96366666666666666523571254 0.96366666666666666523571255 _ _ 17); lra).
    pose (t16 := 1 - y / 16 * t17).
    assert (Bt16 : 0.96064035166176470438964079 <= t16 <= 0.9606403516617647043896408)
      by (apply (horner_step y t17 0.65400000000000002575717417 0.65400000000000002575717418 0.96292717647058823388908904 0.96292717647058823388908905 _ _ 16); lra).
    pose (t15 := 1 - y / 15 * t16).
    assert (Bt15 : 0.95811608066754705723905293 <= t15 <= 0.95811608066754705723905294)
      by (apply (horner_step y t16 0.65400000000000002575717417 0.65400000000000002575717418 0.96064035166176470438964079 0.9606403516617647043896408 _ _ 15); lra).
    pose (t14 := 1 - y / 14 * t15).
    assert (Bt14 : 0.95524229166024458570623547 <= t14 <= 0.95524229166024458570623548)
      by (apply (horner_step y t15 0.65400000000000002575717417 0.65400000000000002575717418 0.95811608066754705723905293 0.95811608066754705723905294 _ _ 14); lra).
    pose (t13 := 1 - y / 13 * t14).
    assert (Bt13 : 0.9519439647118615397187523 <= t13 <= 0.95194396471186153971875231)
      by (apply (horner_step y t14 0.65400000000000002575717417 0.65400000000000002575717418 0.95524229166024458570623547 0.95524229166024458570623548 _ _ 13); lra).
    pose (t12 := 1 - y / 12 * t13).
    assert (Bt12 : 0.94811905392320354404204579 <= t12 <= 0.9481190539232035440420458)
      by (apply (horner_step y t13 0.65400000000000002575717417 0.65400000000000002575717418 0.9519439647118615397187523 0.95194396471186153971875231 _ _ 12); lra).
    pose (t11 := 1 - y / 11 * t12).
    assert (Bt11 : 0.94363001261220225979778494 <= t11 <= 0.94363001261220225979778495)
      by (apply (horner_step y t12 0.65400000000000002575717417 0.65400000000000002575717418 0.94811905392320354404204579 0.9481190539232035440420458 _ _ 11); lra).
    pose (t10 := 1 - y / 10 * t11).
    assert (Bt10 : 0.9382865971751619697787006 <= t10 <= 0.93828659717516196977870061)
      by (apply (horner_step y t11 0.65400000000000002575717417 0.65400000000000002575717418 0.94363001261220225979778494 0.94363001261220225979778495 _ _ 10); lra).
    pose (t9 := 1 - y / 9 * t10).
    assert (Bt9 : 0.93181784060527156084412427 <= t9 <= 0.93181784060527156084412428)
      by (apply (horner_step y t10 0.65400000000000002575717417 0.65400000000000002575717418 0.9382865971751619697787006 0.93828659717516196977870061 _ _ 9); lra).
    pose (t8 := 1 - y / 8 * t9).
    assert (Bt8 : 0.92382389153051904690086853 <= t8 <= 0.92382389153051904690086854)
      by (apply (horner_step y t9 0.65400000000000002575717417 0.65400000000000002575717418 0.93181784060527156084412427 0.93181784060527156084412428 _ _ 8); lra).
    pose (t7 := 1 - y / 7 * t8).
    assert (Bt7 : 0.91368845356272007421881986 <= t7 <= 0.91368845356272007421881988)
      by (apply (horner_step y t8 0.65400000000000002575717417 0.65400000000000002575717418 0.92382389153051904690086853 0.92382389153051904690086854 _ _ 7); lra).
    pose (t6 := 1 - y / 6 * t7).
    assert (Bt6 : 0.90040795856166350798780985 <= t6 <= 0.90040795856166350798780987)
      by (apply (horner_step y t7 0.65400000000000002575717417 0.65400000000000002575717418 0.91368845356272007421881986 0.91368845356272007421881988 _ _ 6); lra).
    pose (t5 := 1 - y / 5 * t6).
    assert (Bt5 : 0.88222663902013440851680154 <= t5 <= 0.88222663902013440851680155)
      by (apply (horner_step y t6 0.65400000000000002575717417 0.65400000000000002575717418 0.90040795856166350798780985 0.90040795856166350798780987 _ _ 5); lra).
    pose (t4 := 1 - y / 4 * t5).
    assert (Bt4 : 0.85575594452020801852658664 <= t4 <= 0.85575594452020801852658665)
      by (apply (horner_step y t5 0.65400000000000002575717417 0.65400000000000002575717418 0.88222663902013440851680154 0.88222663902013440851680155 _ _ 4); lra).
    pose (t3 := 1 - y / 3 * t4).
    assert (Bt3 : 0.81344520409459464461391913 <= t3 <= 0.81344520409459464461391915)
      by (apply (horner_step y t4 0.65400000000000002575717417 0.65400000000000002575717418 0.85575594452020801852658664 0.85575594452020801852658665 _ _ 3); lra).
    pose (t2 := 1 - y / 2 * t3).
    assert (Bt2 : 0.73400341826106754073522353 <= t2 <= 0.73400341826106754073522355)
      by (apply (horner_step y t3 0.65400000000000002575717417 0.65400000000000002575717418 0.81344520409459464461391913 0.81344520409459464461391915 _ _ 2); lra).
    pose (t1 := 1 - y / 1 * t2).
    assert (Bt1 : 0.5199617644572618094533099 <= t1 <= 0.51996176445726180945330993)
      by (apply (horner_step y t2 0.65400000000000002575717417 0.65400000000000002575717418 0.73400341826106754073522353 0.73400341826106754073522355 _ _ 1); lra).
    replace (sum_f_R0 (tg_alt (fun i => y ^ i / INR (fact i))) (2 * 9)) with t1;
      [lra|].
    unfold t1, t2, t3, t4, t5, t6, t7, t8, t9, t10, t11, t12, t13, t14, t15, t16, t17, t18.
    change (2 * 9)%nat with 18%nat. cbv [sum_f_R0 tg_alt].
    repeat rewrite INR_fact. eval_Zfact. field.
Qed.

#[local] Open Scope float_scope.

(** The real [exp] at the float that [c2 / (n l T)] is at 500 nm and
    5500 K. *)
Lemma exp_exponent :
  (187.166762961997155726579 <= exp (F2R (C2 / (1 * 500e-9 * 5500)))
   <= 187.166762961997155733997)%R.
Proof.
  pose proof exp_m654 as [L U].
  F2R_compute.
  assert (E : (exp (5890708312600609 * / 2 ^ 50)
               = / (exp (- (5890708312600609 / 2 ^ 53))) ^ 8)%R).
  { rewrite <- (pow_inv (exp (- (5890708312600609 / 2 ^ 53))) 8).
    rewrite <- exp_Ropp, Ropp_involutive.
    replace (5890708312600609 * / 2 ^ 50)%R
      with (5890708312600609 / 2 ^ 53 + 5890708312600609 / 2 ^ 53
            + 5890708312600609 / 2 ^ 53 + 5890708312600609 / 2 ^ 53
            + 5890708312600609 / 2 ^ 53 + 5890708312600609 / 2 ^ 53
            + 5890708312600609 / 2 ^ 53 + 5890708312600609 / 2 ^ 53)%R by lra.
    rewrite !exp_plus. ring. }
  rewrite E.
  set (a := exp (- (5890708312600609 / 2 ^ 53))) in *.
  assert (H1 : (a ^ 8 <= 0.51996176445726180945330993 ^ 8)%R) by (apply pow_incr; lra).
  assert (H2 : (0.51996176445726180945073428 ^ 8 <= a ^ 8)%R) by (apply pow_incr; lra).
  assert (P8 : (0 < a ^ 8)%R) by (apply pow_lt; lra).
  split.
  - apply Rmult_le_reg_r with (a ^ 8)%R; [lra|]. rewrite Rinv_l by lra. lra.
  - apply Rmult_le_reg_r with (a ^ 8)%R; [lra|]. rewrite Rinv_l by lra. lra.
Qed.


Lemma accurate_binade (x : float) (v a b : R) (e lo : Z) (n : nat) :
  (0 < a)%R -> (a <= v <= b)%R -> accurate x v ->
  (2 ^ 52 <= lo)%Z -> (lo + Z.of_nat n <= 2 ^ 53)%Z -> (-1074 <= e)%Z ->
  (IZR lo * powerRZ 2 e <= a * (1 - accuracy))%R ->
  (b * (1 + accuracy) < IZR (lo + Z.of_nat n) * powerRZ 2 e)%R ->
  In x (binade e lo n).
Proof.
  intros Ha Hv Hx Hlo Hhi He L U.
  destruct (accurate_bounds x v a b Ha Hv Hx) as [L' U'].
  apply F2R_binade; try assumption. split; lra.
Qed.

Ltac binade_bounds :=
  unfold accuracy; cbn [powerRZ];
  repeat match goal with
    | |- context [Pos.to_nat ?p] =>
        let v := eval vm_compute in (Pos.to_nat p) in
        change (Pos.to_nat p) with v
    end;
  repeat match goal with
    | |- context [IZR (?a + ?b)] =>
        let v := eval vm_compute in (a + b)%Z in
        change (a + b)%Z with v
    end;
  lra.

(** The floats that an accurate [exp], [pow(l, -5)] and [pow(y, -1)] can
    return there. *)
Lemma exp_candidates (e : float) :
  accurate e (exp (F2R (C2 / (1 * 500e-9 * 5500)))) ->
  In e (binade (-45) 6585345030717121 13).
Proof.
  intros H.
  eapply accurate_binade with (2 := exp_exponent) (3 := H);
    [lra | (vm_compute; congruence) .. | binade_bounds | binade_bounds].
Qed.

(** The exact [l^-5] at the float that [500e-9] is. *)
Lemma pow5_value :
  (32000000000000007240302107000000 <= / F2R 500e-9 ^ 5
   <= 32000000000000007240302108000000)%R.
Proof.
  F2R_compute.
  set (c := (4722366482869645 * / 2 ^ 73)%R).
  assert (C : (0 < c ^ 5)%R) by (apply pow_lt; unfold c; lra).
  split.
  - apply Rmult_le_reg_r with (c ^ 5)%R; [lra|]. rewrite Rinv_l by lra.
    unfold c. lra.
  - apply Rmult_le_reg_r with (c ^ 5)%R; [lra|]. rewrite Rinv_l by lra.
    unfold c. lra.
Qed.

Lemma pow5_candidates (p : float) :
  accurate p (/ F2R 500e-9 ^ 5) ->
  In p (binade 52 7105427357600997 13).
Proof.
  intros H.
  eapply accurate_binade with (2 := pow5_value) (3 := H);
    [lra | (vm_compute; congruence) .. | binade_bounds | binade_bounds].
Qed.


(** [e - 1] for each candidate [e] of [exp]. *)
Lemma sub_one_values (e : float) :
  In e (binade (-45) 6585345030717121 13) ->
  (186.16676296199696594158 <= F2R (e - 1) <= 186.166762961997307002094)%R.
Proof.
  intros H. cbv [binade map seq] in H.
  repeat (destruct H as [<-|H]); [..|destruct H]; F2R_compute; lra.
Qed.

Lemma recip_candidates (e q : float) :
  In e (binade (-45) 6585345030717121 13) ->
  accurate q (/ F2R (e - 1)) ->
  In q (binade (-60) 6192950268153906 23).
Proof.
  intros He H. pose proof (sub_one_values e He) as [L U].
  set (y := F2R (e - 1)) in *.
  assert (V : (0.00537152810786172681969386 <= / y
               <= 0.00537152810786173666042005)%R).
  { split.
    - apply Rmult_le_reg_r with y; [lra|]. rewrite Rinv_l by lra. lra.
    - apply Rmult_le_reg_r with y; [lra|]. rewrite Rinv_l by lra. lra. }
  eapply accurate_binade with (2 := V) (3 := H);
    [lra | (vm_compute; congruence) .. | binade_bounds | binade_bounds].
Qed.

(** ** The value at 500 nm and 5500 K *)

(** The radiance at every pair of candidates is within the tolerance. *)
Lemma radiance_candidates :
  forallb (fun p =>
    forallb (fun q =>
      abs (C1 * 1 * p / np_pi * q - 2.04727019e13) <=? 1e-6 * 2.04727019e13)
      (binade (-60) 6192950268153906 23))
    (binade 52 7105427357600997 13) = true.
Proof. vm_compute. reflexivity. Qed.

(** C7. [planck_law(500e-9, 5500)] with [C1 = 3.741771e-16],
    [C2 = 1.4388e-2] and [n = 1] is [2.04727019e13] within the relative
    tolerance [1e-6], on binary64, for every C library whose [exp] and [pow]
    are accurate in the three calls that [planck_law] makes of them here:
    [exp(c2 / (n l T))], [pow(l, -5)] and [pow(exp(...) - 1, -1)]. *)
Theorem planck_law_500nm_5500K (M : Libm) :
  accurate (c_exp M (C2 / (1 * 500e-9 * 5500)))
    (exp (F2R (C2 / (1 * 500e-9 * 5500)))) ->
  accurate (c_pow M 500e-9 (-5)) (/ F2R 500e-9 ^ 5) ->
  accurate (c_pow M (c_exp M (C2 / (1 * 500e-9 * 5500)) - 1) (-1))
    (/ F2R (c_exp M (C2 / (1 * 500e-9 * 5500)) - 1)) ->
  exists p,
    planck_law M (PyFloat 500e-9) (PyFloat 5500) (PyFloat C1) (PyFloat C2) (PyInt N)
    = Ok (PyArr (Arr0 p))
    /\ (abs (p - 2.04727019e13) <=? 1e-6 * 2.04727019e13) = true.
Proof.
  intros He Hp Hq.
  exists (radiance M C1 C2 1 1 500e-9 5500). split.
  - now rewrite (planck_law_scalar M _ _ _ _ (PyInt N) 1 1).
  - unfold radiance.
    pose proof (pow5_candidates _ Hp) as Ip.
    pose proof (recip_candidates _ _ (exp_candidates _ He) Hq) as Iq.
    pose proof radiance_candidates as R.
    rewrite forallb_forall in R. specialize (R _ Ip).
    rewrite forallb_forall in R. exact (R _ Iq).
Qed.

(** ** The small C library is accurate there *)

Lemma sample_exp_accurate :
  accurate (SampleLibm.exp (C2 / (1 * 500e-9 * 5500)))
    (exp (F2R (C2 / (1 * 500e-9 * 5500)))).
Proof.
  pose proof exp_exponent as [L U].
  set (v := exp (F2R (C2 / (1 * 500e-9 * 5500)))) in *.
  unfold accurate, accuracy. rewrite (Rabs_pos_eq v) by lra.
  F2R_compute. apply Rabs_le. split; lra.
Qed.

Lemma sample_pow5_accurate :
  accurate (SampleLibm.pow 500e-9 (-5)) (/ F2R 500e-9 ^ 5).
Proof.
  pose proof pow5_value as [L U].
  set (v := (/ F2R 500e-9 ^ 5)%R) in *.
  unfold accurate, accuracy. rewrite (Rabs_pos_eq v) by lra.
  F2R_compute. apply Rabs_le. split; lra.
Qed.

Lemma sample_recip_accurate :
  accurate (SampleLibm.pow (SampleLibm.exp (C2 / (1 * 500e-9 * 5500)) - 1) (-1))
    (/ F2R (SampleLibm.exp (C2 / (1 * 500e-9 * 5500)) - 1)).
Proof.
  unfold accurate, accuracy. F2R_compute.
  set (y := (6550160658628296 * / 2 ^ 45)%R).
  assert (V : (0.0053715281078617309199 <= / y <= 0.0053715281078617309200)%R).
  { assert (0 < y)%R by (unfold y; lra). split.
    - apply Rmult_le_reg_r with y; [lra|]. rewrite Rinv_l by lra. unfold y. lra.
    - apply Rmult_le_reg_r with y; [lra|]. rewrite Rinv_l by lra. unfold y. lra. }
  rewrite (Rabs_pos_eq (/ y)) by lra. apply Rabs_le. split; lra.
Qed.

End Values.

(** * Edge cases of [planck_law] *)

(** ** Exact products in binary64 *)

(** A product by [2^52], written on no more digits than a float has, is
    not rounded. *)
Lemma round_exact (s : bool) (m : positive) (e : Z) :
  valid_binary (S754_finite s m e) = true ->
  binary_round_aux prec emax s (Zpos (Pos.mul 4503599627370496 m)) (e + -52) loc_Exact
  = S754_finite s m e.
Proof.
  unfold SpecFloat.valid_binary, SpecFloat.bounded, SpecFloat.canonical_mantissa.
  intros V. apply andb_prop in V as [C B]. apply Z.eqb_eq in C. apply Z.leb_le in B.
  unfold binary_round_aux.
  assert (S1 : shr_fexp prec emax (Zpos (Pos.mul 4503599627370496 m)) (e + -52) loc_Exact
               = ({| shr_m := Zpos m; shr_r := false; shr_s := false |}, e)).
  { unfold shr_fexp.
    assert (D : Zdigits2 (Zpos (Pos.mul 4503599627370496 m)) = (Zpos (digits2_pos m) + 52)%Z).
    { cbn [Zdigits2 Pos.mul digits2_pos]. rewrite !Pos2Z.inj_succ. lia. }
    rewrite D.
    replace (Z.pos (digits2_pos m) + 52 + (e + -52))%Z with (Z.pos (digits2_pos m) + e)%Z by lia.
    rewrite C. replace (e - (e + -52))%Z with 52%Z by lia.
    cbn [shr shr_record_of_loc].
    replace (e + -52 + 52)%Z with e by lia. reflexivity. }
  rewrite S1. cbn [shr_m loc_of_shr_record round_nearest_even].
  assert (S2 : shr_fexp prec emax (Zpos m) e loc_Exact
               = ({| shr_m := Zpos m; shr_r := false; shr_s := false |}, e)).
  { unfold shr_fexp. cbn [Zdigits2]. rewrite C, Z.sub_diag. reflexivity. }
  rewrite S2. cbn [shr_m].
  apply Z.leb_le in B. now rewrite B.
Qed.

Lemma mul_one_l (x : float) : 1 * x = x.
Proof.
  apply Prim2SF_inj. rewrite mul_spec, Prim2SF_one.
  pose proof (Prim2SF_valid x) as V.
  destruct (Prim2SF x) as [s|s| |s m e]; try reflexivity.
  unfold SF64mul, SFmul. cbn [xorb]. change (-52 + e)%Z with (-52 + e)%Z.
  rewrite Z.add_comm. now apply round_exact.
Qed.

Lemma mul_one_r (x : float) : x * 1 = x.
Proof.
  apply Prim2SF_inj. rewrite mul_spec, Prim2SF_one.
  pose proof (Prim2SF_valid x) as V.
  destruct (Prim2SF x) as [s|s| |s m e]; try (destruct s; reflexivity); try reflexivity.
  unfold SF64mul, SFmul. rewrite xorb_false_r, Pos.mul_comm.
  now apply round_exact.
Qed.

Lemma eqb_zero_cases (z : float) : (z =? 0) = true -> z = 0 \/ z = neg_zero.
Proof.
  rewrite FloatAxioms.eqb_spec, Prim2SF_zero. intros H.
  destruct (Prim2SF z) as [[]|[]| |[] m e] eqn:E; try discriminate H.
  - right. apply Prim2SF_inj. now rewrite E.
  - left. apply Prim2SF_inj. now rewrite E.
Qed.

Lemma pos_finite_mul_zero (x : float) :
  (0 <? x) = true -> is_infinity x = false -> x * 0 = 0.
Proof.
  intros P I. apply Prim2SF_inj. rewrite mul_spec, Prim2SF_zero.
  unfold is_infinity in I. rewrite FloatAxioms.eqb_spec, abs_spec in I.
  rewrite ltb_spec, Prim2SF_zero in P.
  destruct (Prim2SF x) as [[]|[]| |[] m e]; try discriminate P; try discriminate I.
  reflexivity.
Qed.

(** A float whose sign is clear and that is not greater than zero is [+0]
    or a NaN. *)
Lemma sign_clear_not_pos (x : float) :
  sign_clear x = true -> (0 <? x) = false -> x = 0 \/ x = nan.
Proof.
  unfold sign_clear. rewrite ltb_spec, Prim2SF_zero. intros S P.
  destruct (Prim2SF x) as [[]|[]| |[] m e] eqn:E;
    try discriminate S; try discriminate P.
  - left. apply Prim2SF_inj. now rewrite E.
  - right. now apply Prim2SF_nan_inv.
Qed.

(** ** Arrays that cannot be broadcast *)

Lemma np_binop_not_broadcastable (g : float -> float -> float) (a b : ndarray) :
  broadcastable a b = false -> np_binop g a b = Raise ValueError.
Proof.
  destruct a as [x|xs], b as [y|ys]; try discriminate.
  cbn [broadcastable]. intros H.
  apply orb_false_elim in H as [H H2]. apply orb_false_elim in H as [H0 H1].
  unfold np_binop, broadcast. cbn [elems]. rewrite H0.
  destruct xs as [|x [|x' xs]], ys as [|y [|y' ys]];
    try discriminate H1; try discriminate H2; reflexivity.
Qed.

Section PlanckLawEdges.

Context (M : Libm).

Lemma radiance_default_index (c1 c2 l t : float) :
  radiance M c1 c2 1 1 l t
  = (c1 * c_pow M l (-5) / np_pi) * c_pow M (c_exp M (c2 / (l * t)) - 1) (-1).
Proof. unfold radiance. now rewrite mul_one_r, mul_one_l. Qed.

Lemma radiance_signs (wavelength temperature : float) :
  sign_clear wavelength = true -> sign_clear temperature = true ->
  sign_clear (radiance M C1 C2 1 1 wavelength temperature) = true.
Proof.
  intros Hw Ht. unfold radiance. apply mul_sign_clear.
  - apply div_sign_clear; [|reflexivity].
    apply mul_sign_clear; [reflexivity|]. now apply c_pow_sign.
  - apply c_pow_sign.
    assert (Hh : sign_clear (C2 / (1 * wavelength * temperature)) = true).
    { apply div_sign_clear; [reflexivity|].
      apply mul_sign_clear; [|exact Ht].
      apply mul_sign_clear; [reflexivity | exact Hw]. }
    destruct (sign_clear_cases _ Hh) as [E|E].
    + rewrite E, c_exp_nan. reflexivity.
    + now apply sub_one_sign_clear, c_exp_ge_1.
Qed.

Lemma py_pow_zero (n : pyobj) :
  (n = PyInt 0 \/ exists z, n = PyFloat z /\ (z =? 0) = true) ->
  py_pow M n (-2) = Raise ZeroDivisionError.
Proof.
  intros [->|[z [-> Z]]]; [reflexivity|].
  destruct (eqb_zero_cases z Z) as [->| ->]; reflexivity.
Qed.

Lemma planck_law_py_pow_raises (wavelength temperature c1 c2 n : pyobj)
    (l t : ndarray) (e : exn) :
  as_float_array wavelength = Ok l ->
  as_float_array temperature = Ok t ->
  py_pow M n (-2) = Raise e ->
  planck_law M wavelength temperature c1 c2 n = Raise e.
Proof.
  intros Hl Ht P. unfold planck_law, lift1, lift2. rewrite Hl, Ht.
  cbn [fmap bind]. now rewrite P.
Qed.

(** X1. A refractive index that is zero, the int [0] or a float equal to
    zero ([0.0] or [-0.0]), makes [planck_law] raise [ZeroDivisionError],
    whatever the wavelength, the temperature and the constants [c1] and
    [c2] are: [n ** -2] is a power of Python scalars. *)
Theorem planck_law_zero_index_raises (wavelength temperature c1 c2 n : pyobj)
    (l t : ndarray) :
  as_float_array wavelength = Ok l ->
  as_float_array temperature = Ok t ->
  (n = PyInt 0 \/ exists z, n = PyFloat z /\ (z =? 0) = true) ->
  planck_law M wavelength temperature c1 c2 n = Raise ZeroDivisionError.
Proof.
  intros Hl Ht Hn.
  exact (planck_law_py_pow_raises _ _ c1 c2 n l t _ Hl Ht (py_pow_zero n Hn)).
Qed.

(** X2. Wavelengths and temperatures that are arrays of lengths that differ
    and are both other than one cannot be broadcast together:
    [planck_law] raises [ValueError]. *)
Theorem planck_law_shape_mismatch_raises (wavelength temperature : pyobj)
    (l t : ndarray) (c1 c2 : float) (n : pyobj) (n_2 nf : float) :
  as_float_array wavelength = Ok l ->
  as_float_array temperature = Ok t ->
  broadcastable l t = false ->
  py_pow M n (-2) = Ok (PyFloat n_2) ->
  np_coerce n = Ok (Arr0 nf) ->
  planck_law M wavelength temperature (PyFloat c1) (PyFloat c2) n = Raise ValueError.
Proof.
  intros Hl Ht Hb Hp Hn.
  rewrite (planck_law_as_float_array M _ _ _ _ _ l t Hl Ht).
  rewrite (planck_law_arrays M _ _ _ _ _ _ _ Hp Hn).
  now rewrite np_binop_not_broadcastable.
Qed.

(** X3. An array of length one is stretched along the other array: one
    wavelength with an array of temperatures gives the radiance of that
    wavelength at each temperature, an array of wavelengths with one
    temperature the radiance of each wavelength at that temperature. *)
Theorem planck_law_stretches (c1 c2 : float) (n : pyobj) (n_2 nf : float) :
  py_pow M n (-2) = Ok (PyFloat n_2) ->
  np_coerce n = Ok (Arr0 nf) ->
  (forall w ts,
      planck_law M (PyArr (Arr1 [w])) (PyArr (Arr1 ts)) (PyFloat c1) (PyFloat c2) n
      = Ok (PyArr (Arr1 (map (fun t => radiance M c1 c2 nf n_2 w t) ts))))
  /\ (forall ws t,
        planck_law M (PyArr (Arr1 ws)) (PyArr (Arr1 [t])) (PyFloat c1) (PyFloat c2) n
        = Ok (PyArr (Arr1 (map (fun w => radiance M c1 c2 nf n_2 w t) ws)))).
Proof.
  intros Hp Hn. split.
  - intros w ts. rewrite (planck_law_arrays M _ _ _ _ _ _ _ Hp Hn).
    unfold np_binop, broadcast. cbn [elems].
    destruct ts as [|t [|t' ts]]; reflexivity.
  - intros ws t. rewrite (planck_law_arrays M _ _ _ _ _ _ _ Hp Hn).
    unfold np_binop, broadcast. cbn [elems].
    destruct ws as [|w [|w' ws]]; reflexivity.
Qed.

(** X4. With the default refractive index [n = 1] the index drops out of
    the result without a rounding error: the radiance is
    [(c1 l^-5 / pi) (exp(c2 / (l T)) - 1)^-1] on binary64. *)
Theorem planck_law_default_index (wavelength temperature c1 c2 : float) :
  planck_law M (PyFloat wavelength) (PyFloat temperature)
    (PyFloat c1) (PyFloat c2) (PyInt N)
  = Ok (PyArr (Arr0
      ((c1 * c_pow M wavelength (-5) / np_pi)
       * c_pow M (c_exp M (c2 / (wavelength * temperature)) - 1) (-1)))).
Proof.
  rewrite (planck_law_scalar M _ _ _ _ (PyInt N) 1 1) by reflexivity.
  cbn [np_binop fmap bind]. now rewrite radiance_default_index.
Qed.

(** X5. Where [c2 / (l T)] is at least [710], for a wavelength > 0 and a
    temperature > 0, [exp] overflows and [planck_law] with the default
    constants returns [0.0] or a NaN, never a positive radiance. *)
Theorem planck_law_underflow (wavelength temperature : float) :
  (0 <? wavelength) = true ->
  (0 <? temperature) = true ->
  (710 <=? C2 / (wavelength * temperature)) = true ->
  exists p,
    planck_law M (PyFloat wavelength) (PyFloat temperature)
      (PyFloat C1) (PyFloat C2) (PyInt N) = Ok (PyArr (Arr0 p))
    /\ (p = 0 \/ p = nan).
Proof.
  intros Hw Ht H. exists (radiance M C1 C2 1 1 wavelength temperature). split.
  - now rewrite (planck_law_scalar M _ _ _ _ (PyInt N) 1 1).
  - apply sign_clear_not_pos.
    + apply radiance_signs; now apply pos_sign_clear.
    + apply radiance_exp_overflow. now rewrite mul_one_l.
Qed.

(** X6. At the temperature [0.0] and a finite wavelength > 0,
    [planck_law] with the default constants raises nothing and returns
    [0.0] or a NaN. *)
Theorem planck_law_at_zero_temperature (wavelength : float) :
  (0 <? wavelength) = true ->
  is_infinity wavelength = false ->
  exists p,
    planck_law M (PyFloat wavelength) (PyFloat 0)
      (PyFloat C1) (PyFloat C2) (PyInt N) = Ok (PyArr (Arr0 p))
    /\ (p = 0 \/ p = nan).
Proof.
  intros Hw Hi. exists (radiance M C1 C2 1 1 wavelength 0). split.
  - now rewrite (planck_law_scalar M _ _ _ _ (PyInt N) 1 1).
  - apply sign_clear_not_pos.
    + apply radiance_signs; [now apply pos_sign_clear | reflexivity].
    + apply radiance_exp_overflow.
      rewrite mul_one_l, (pos_finite_mul_zero _ Hw Hi). reflexivity.
Qed.

End PlanckLawEdges.

(** * Edge cases of [sd_blackbody] *)

(** ** Dictionaries made of any list of items *)

Lemma dict_set_length (d : dict) (k v : float) :
  (List.length (dict_set d k v) <= S (List.length d))%nat.
Proof.
  induction d as [|[k' v'] d IH]; simpl; [lia|].
  destruct (k' =? k); simpl; lia.
Qed.

Lemma dict_set_In (d : dict) (k v k' v' : float) :
  In (k', v') (dict_set d k v) ->
  In (k', v') d \/ (v' = v /\ (k' = k \/ In k' (map fst d))).
Proof.
  induction d as [|[k0 v0] d IH]; simpl.
  - intros [E|[]]. injection E as <- <-. right. auto.
  - destruct (k0 =? k) eqn:E; simpl.
    + intros [H|H]; [|auto]. injection H as <- <-. right. auto.
    + intros [H|H]; [auto|]. destruct (IH H) as [H'|[-> [->|H']]]; auto.
Qed.

Lemma dict_set_fst (P : float -> Prop) (d : dict) (k v : float) :
  Forall (fun kv => P (fst kv)) d -> P k ->
  Forall (fun kv => P (fst kv)) (dict_set d k v).
Proof.
  induction d as [|[k' v'] d IH]; intros F Pk; simpl.
  - constructor; [exact Pk | constructor].
  - inversion F as [|? ? Hk Hd]; subst.
    destruct (k' =? k); constructor; auto.
Qed.

Lemma dict_set_distinct (d : dict) (k v : float) :
  distinct_keys d -> distinct_keys (dict_set d k v).
Proof.
  unfold distinct_keys.
  induction d as [|[k' v'] d IH]; intros D; simpl.
  - constructor; constructor.
  - inversion D as [|? ? Hk Hd]; subst.
    destruct (k' =? k) eqn:E.
    + constructor; assumption.
    + constructor; [|now apply IH].
      now apply (dict_set_fst (fun x => (k' =? x) = false)).
Qed.

Section Items.

Context (f : float -> float).

#[local] Abbreviation items := (map (fun w => (w, f w))).
#[local] Abbreviation set_all :=
  (fold_left (fun d kv => dict_set d (fst kv) (snd kv))).

Lemma fold_dict_set_distinct (ws : list float) (d : dict) :
  distinct_keys d -> distinct_keys (set_all (items ws) d).
Proof.
  revert d. induction ws as [|w ws IH]; intros d D; simpl; [exact D|].
  now apply IH, dict_set_distinct.
Qed.

Lemma fold_dict_set_length (ws : list float) (d : dict) :
  (List.length (set_all (items ws) d) <= List.length d + List.length ws)%nat.
Proof.
  revert d. induction ws as [|w ws IH]; intros d; simpl; [lia|].
  specialize (IH (dict_set d w (f w))).
  pose proof (dict_set_length d w (f w)). cbn [fst snd] in *. lia.
Qed.


Lemma dict_set_from (all : list float) (d : dict) (w : float) :
  In w all -> drawn_from f all d -> drawn_from f all (dict_set d w (f w)).
Proof.
  unfold drawn_from. rewrite !Forall_forall. intros Hw F [k v] Hin.
  destruct (dict_set_In _ _ _ _ _ Hin) as [H|[-> [->|H]]].
  - now apply F.
  - split; [exact Hw | now exists w].
  - split; [|now exists w].
    apply in_map_iff in H as [[k' v'] [E H]]. cbn [fst] in E. subst k'.
    exact (proj1 (F _ H)).
Qed.

Lemma fold_dict_set_from (all ws : list float) (d : dict) :
  incl ws all -> drawn_from f all d -> drawn_from f all (set_all (items ws) d).
Proof.
  revert d. induction ws as [|w ws IH]; intros d I F; simpl; [exact F|].
  apply IH.
  - intros x Hx. apply I. now right.
  - apply dict_set_from; [apply I; now left | exact F].
Qed.

Lemma dict_of_pairs_items (ws : list float) :
  distinct_keys (dict_of_pairs (items ws))
  /\ (List.length (dict_of_pairs (items ws)) <= List.length ws)%nat
  /\ drawn_from f ws (dict_of_pairs (items ws)).
Proof.
  unfold dict_of_pairs. split; [|split].
  - apply fold_dict_set_distinct. constructor.
  - exact (fold_dict_set_length ws []).
  - apply (fold_dict_set_from ws ws []); [apply incl_refl | constructor].
Qed.

End Items.

Section SdBlackbodyEdges.

Context (M : Libm).
Context {SpectralShape : Type} (range : SpectralShape -> list float).
Context (float_str : float -> string) (array_str : ndarray -> string).

#[local] Abbreviation sd_call := (sd_blackbody M range float_str array_str).

(** X7. With a refractive index that is zero [sd_blackbody] raises
    [ZeroDivisionError] for every shape, the one with an empty range
    included. *)
Theorem sd_blackbody_zero_index_raises (temperature : pyobj) (shape : SpectralShape)
    (c1 c2 n : pyobj) (t : ndarray) :
  as_float_array temperature = Ok t ->
  (n = PyInt 0 \/ exists z, n = PyFloat z /\ (z =? 0) = true) ->
  sd_call temperature shape c1 c2 n = Raise ZeroDivisionError.
Proof.
  intros Ht Hn. unfold sd_blackbody.
  rewrite py_mul_arr_float. cbn [bind].
  now rewrite (planck_law_py_pow_raises M
                 (PyArr (np_map (fun x => x * 1e-9) (Arr1 (range shape)))) _ c1 c2 n
                 _ t _ eq_refl Ht (py_pow_zero M n Hn)).
Qed.

(** X8. A temperature that is an array which cannot be broadcast with the
    wavelengths of the shape makes [sd_blackbody] raise [ValueError]. *)
Theorem sd_blackbody_temperature_mismatch_raises (shape : SpectralShape)
    (ts : list float) (c1 c2 : float) (n : pyobj) (n_2 nf : float) :
  broadcastable (Arr1 (range shape)) (Arr1 ts) = false ->
  py_pow M n (-2) = Ok (PyFloat n_2) ->
  np_coerce n = Ok (Arr0 nf) ->
  sd_call (PyArr (Arr1 ts)) shape (PyFloat c1) (PyFloat c2) n = Raise ValueError.
Proof.
  intros Hb Hp Hn. unfold sd_blackbody.
  rewrite py_mul_arr_float. cbn [bind np_map].
  rewrite (planck_law_arrays M _ _ _ _ _ _ _ Hp Hn).
  rewrite np_binop_not_broadcastable; [reflexivity|].
  cbn [broadcastable] in *. now rewrite length_map.
Qed.

(** X9. Whatever the range of the shape is, in order or not, with repeated
    wavelengths or not: no two keys of the table of [sd_blackbody] compare
    equal, the table has no more items than the range has wavelengths, and
    every item has a wavelength of the range as its key and the radiance at
    a wavelength of the range as its value. *)
Theorem sd_blackbody_keys (temperature : pyobj) (shape : SpectralShape)
    (c1 c2 : float) (n : pyobj) (t n_2 nf : float) :
  as_float_array temperature = Ok (Arr0 t) ->
  py_pow M n (-2) = Ok (PyFloat n_2) ->
  np_coerce n = Ok (Arr0 nf) ->
  exists sd,
    sd_call temperature shape (PyFloat c1) (PyFloat c2) n = Ok sd
    /\ distinct_keys (sd_data sd)
    /\ (List.length (sd_data sd) <= List.length (range shape))%nat
    /\ forall k v, In (k, v) (sd_data sd) ->
         In k (range shape)
         /\ exists w, In w (range shape) /\ v = radiance M c1 c2 nf n_2 (w * 1e-9) t.
Proof.
  intros Ht Hp Hn. eexists.
  split; [exact (sd_blackbody_eq M range float_str array_str
                   temperature shape c1 c2 n t n_2 nf Ht Hp Hn)|].
  cbn [sd_data SpectralDistribution_init].
  destruct (dict_of_pairs_items (fun w => radiance M c1 c2 nf n_2 (w * 1e-9) t)
              (range shape)) as [D [L F]].
  split; [exact D|]. split; [exact L|].
  intros k v Hin. unfold drawn_from in F. rewrite Forall_forall in F. exact (F _ Hin).
Qed.

(** X10. For a temperature and wavelengths that are not negative, with the
    default constants, no value of the table of [sd_blackbody] is
    negative. *)
Theorem sd_blackbody_not_negative (temperature : pyobj) (shape : SpectralShape)
    (t : float) :
  as_float_array temperature = Ok (Arr0 t) ->
  sign_clear t = true ->
  Forall (fun w => sign_clear w = true) (range shape) ->
  exists sd,
    sd_call temperature shape (PyFloat C1) (PyFloat C2) (PyInt N) = Ok sd
    /\ forall k v, In (k, v) (sd_data sd) -> (v <? 0) = false.
Proof.
  intros Ht St Sw. eexists.
  split; [exact (sd_blackbody_eq M range float_str array_str
                   temperature shape C1 C2 (PyInt N) t 1 1 Ht eq_refl eq_refl)|].
  cbn [sd_data SpectralDistribution_init].
  destruct (dict_of_pairs_items (fun w => radiance M C1 C2 1 1 (w * 1e-9) t)
              (range shape)) as [_ [_ F]].
  intros k v Hin. unfold drawn_from in F. rewrite Forall_forall in F, Sw.
  destruct (F _ Hin) as [_ [w [Hw E]]]. cbn [snd] in E. subst v.
  apply sign_clear_not_neg, radiance_signs; [|exact St].
  apply mul_sign_clear; [now apply Sw | reflexivity].
Qed.

End SdBlackbodyEdges.

(** * The ACES dataset *)

Lemma forallb_Forall {A : Type} (p : A -> bool) (l : list A) :
  forallb p l = true -> Forall (fun x => p x = true) l.
Proof. intros H. apply Forall_forall. now apply forallb_forall. Qed.

(** X14. [ACES_RICD_DATA] has the three channels [r_bar], [g_bar] and
    [b_bar], and each channel has as its keys the 471 whole wavelengths from
    360 to 830, in increasing order: the channels are sampled alike, no
    wavelength is missing or written twice. *)
Theorem ACES_RICD_DATA_wavelengths :
  map fst ACES_RICD_DATA = ["r_bar"; "g_bar"; "b_bar"]%string
  /\ Forall (fun channel => map fst (snd channel) = whole_wavelengths 360 471)
       ACES_RICD_DATA.
Proof.
  split; [reflexivity|].
  unfold ACES_RICD_DATA.
  apply Forall_cons; [vm_compute; reflexivity|].
  apply Forall_cons; [vm_compute; reflexivity|].
  apply Forall_cons; [vm_compute; reflexivity|].
  apply Forall_nil.
Qed.


(** X15. Every sensitivity of [ACES_RICD_DATA] is a number between [0]
    and [1]: none is negative, infinite or a NaN. *)
Theorem ACES_RICD_DATA_sensitivities :
  Forall (fun channel =>
            Forall (fun item => (0 <=? snd item) && (snd item <=? 1) = true)
              (snd channel))
    ACES_RICD_DATA.
Proof.
  unfold ACES_RICD_DATA.
  apply Forall_cons; [apply forallb_Forall; vm_compute; reflexivity|].
  apply Forall_cons; [apply forallb_Forall; vm_compute; reflexivity|].
  apply Forall_cons; [apply forallb_Forall; vm_compute; reflexivity|].
  apply Forall_nil.
Qed.

(** * Witnesses

    Each theorem that has hypotheses, at the constants of the module, with
    the small C library. *)

Lemma planck_law_formula_witness :
  py_pow sample_libm (PyInt N) (-2) = Ok (PyFloat 1)
  /\ np_coerce (PyInt N) = Ok (Arr0 1)
  /\ planck_law sample_libm (PyFloat 500e-9) (PyFloat 5500)
       (PyFloat C1) (PyFloat C2) (PyInt N)
     = Ok (PyArr (Arr0 (radiance sample_libm C1 C2 1 1 500e-9 5500))).
Proof.
  split; [reflexivity|]. split; [reflexivity|].
  apply (planck_law_formula sample_libm 500e-9 5500 C1 C2 (PyInt N) 1 1);
    reflexivity.
Defined.

Lemma planck_law_broadcasts_witness :
  py_pow sample_libm (PyInt N) (-2) = Ok (PyFloat 1)
  /\ np_coerce (PyInt N) = Ok (Arr0 1)
  /\ planck_law sample_libm (PyArr (Arr1 [400e-9; 500e-9; 600e-9])) (PyFloat 5500)
       (PyFloat C1) (PyFloat C2) (PyInt N)
     = Ok (PyArr (Arr1 [radiance sample_libm C1 C2 1 1 400e-9 5500;
                        radiance sample_libm C1 C2 1 1 500e-9 5500;
                        radiance sample_libm C1 C2 1 1 600e-9 5500])).
Proof.
  split; [reflexivity|]. split; [reflexivity|].
  exact (proj1 (proj2 (planck_law_broadcasts sample_libm C1 C2 (PyInt N) 1 1
                         eq_refl eq_refl))
           [400e-9; 500e-9; 600e-9] 5500).
Defined.

Lemma planck_law_returns_witness :
  as_float_array (PyFloat 0) = Ok (Arr0 0)
  /\ as_float_array (PyFloat (-1)) = Ok (Arr0 (-1))
  /\ broadcastable (Arr0 0) (Arr0 (-1)) = true
  /\ py_pow sample_libm (PyInt N) (-2) = Ok (PyFloat 1)
  /\ (forall z, PyInt N = PyInt z -> (- 2 ^ 63 <= z < 2 ^ 64)%Z)
  /\ exists p, planck_law sample_libm (PyFloat 0) (PyFloat (-1))
                 (PyFloat C1) (PyFloat C2) (PyInt N) = Ok (PyArr p).
Proof.
  assert (R : forall z, PyInt N = PyInt z -> (- 2 ^ 63 <= z < 2 ^ 64)%Z).
  { intros z E. injection E as <-. unfold N. lia. }
  repeat (split; [reflexivity|]). split; [exact R|].
  exact (planck_law_returns sample_libm (PyFloat 0) (PyFloat (-1))
           (Arr0 0) (Arr0 (-1)) C1 C2 (PyInt N) 1
           eq_refl eq_refl eq_refl eq_refl R).
Defined.

Lemma planck_law_not_negative_witness :
  (0 <? 500e-9) = true
  /\ (0 <? 5500) = true
  /\ exists p,
       planck_law sample_libm (PyFloat 500e-9) (PyFloat 5500)
         (PyFloat C1) (PyFloat C2) (PyInt N) = Ok (PyArr (Arr0 p))
       /\ sign_clear p = true
       /\ (p <? 0) = false.
Proof.
  split; [reflexivity|]. split; [reflexivity|].
  apply (planck_law_not_negative sample_libm 500e-9 5500); reflexivity.
Defined.

Lemma sd_blackbody_table_witness :
  as_float_array (PyInt 5000) = Ok (Arr0 5000)
  /\ py_pow sample_libm (PyInt N) (-2) = Ok (PyFloat 1)
  /\ np_coerce (PyInt N) = Ok (Arr0 1)
  /\ Sorted (fun a b => (a <? b) = true) (sample_range [360; 361; 830])
  /\ Forall (fun w => is_nan w = false) (sample_range [360; 361; 830])
  /\ exists sd,
       sd_blackbody sample_libm sample_range sample_str sample_array_str
         (PyInt 5000) [360; 361; 830] (PyFloat C1) (PyFloat C2) (PyInt N) = Ok sd
       /\ map fst (sd_data sd) = sample_range [360; 361; 830]
       /\ forall w, In w (sample_range [360; 361; 830]) ->
            exists p,
              planck_law sample_libm (PyFloat (w * 1e-9)) (PyInt 5000)
                (PyFloat C1) (PyFloat C2) (PyInt N) = Ok (PyArr (Arr0 p))
              /\ dict_get (sd_data sd) w = Some p.
Proof.
  assert (S : Sorted (fun a b => (a <? b) = true) (sample_range [360; 361; 830]))
    by (repeat constructor).
  assert (F : Forall (fun w => is_nan w = false) (sample_range [360; 361; 830]))
    by (repeat constructor).
  repeat (split; [reflexivity|]). split; [exact S|]. split; [exact F|].
  exact (sd_blackbody_table sample_libm sample_range sample_str sample_array_str
           (PyInt 5000) [360; 361; 830] C1 C2 (PyInt N) 5000 1 1
           eq_refl eq_refl eq_refl S F).
Defined.

Lemma sd_blackbody_name_witness :
  as_float_array (PyInt 5000) = Ok (Arr0 5000)
  /\ py_pow sample_libm (PyInt N) (-2) = Ok (PyFloat 1)
  /\ np_coerce (PyInt N) = Ok (Arr0 1)
  /\ exists sd,
       sd_blackbody sample_libm sample_range sample_str sample_array_str
         (PyInt 5000) [360; 361; 830] (PyFloat C1) (PyFloat C2) (PyInt N) = Ok sd
       /\ sd_name sd = "5000K Blackbody"%string.
Proof.
  repeat (split; [reflexivity|]).
  exact (sd_blackbody_name sample_libm sample_range sample_str sample_array_str
           (PyInt 5000) [360; 361; 830] C1 C2 (PyInt N) 5000 1 1
           eq_refl eq_refl eq_refl).
Defined.

Lemma sd_blackbody_empty_witness :
  as_float_array (PyInt 5000) = Ok (Arr0 5000)
  /\ py_pow sample_libm (PyInt N) (-2) = Ok (PyFloat 1)
  /\ np_coerce (PyInt N) = Ok (Arr0 1)
  /\ sample_range [] = []
  /\ exists sd,
       sd_blackbody sample_libm sample_range sample_str sample_array_str
         (PyInt 5000) [] (PyFloat C1) (PyFloat C2) (PyInt N) = Ok sd
       /\ sd_data sd = [].
Proof.
  repeat (split; [reflexivity|]).
  exact (sd_blackbody_empty sample_libm sample_range sample_str sample_array_str
           (PyInt 5000) [] C1 C2 (PyInt N) 5000 1 1
           eq_refl eq_refl eq_refl eq_refl).
Defined.

Lemma planck_law_zero_index_raises_witness :
  as_float_array (PyFloat 500e-9) = Ok (Arr0 500e-9)
  /\ as_float_array (PyInt 5500) = Ok (Arr0 5500)
  /\ (neg_zero =? 0) = true
  /\ planck_law sample_libm (PyFloat 500e-9) (PyInt 5500)
       (PyFloat C1) (PyFloat C2) (PyFloat neg_zero)
     = Raise ZeroDivisionError.
Proof.
  repeat (split; [reflexivity|]).
  exact (planck_law_zero_index_raises sample_libm (PyFloat 500e-9) (PyInt 5500)
           (PyFloat C1) (PyFloat C2) (PyFloat neg_zero) (Arr0 500e-9) (Arr0 5500)
           eq_refl eq_refl
           (or_intror (ex_intro _ neg_zero (conj eq_refl eq_refl)))).
Defined.

Lemma planck_law_shape_mismatch_raises_witness :
  broadcastable (Arr1 [400e-9; 500e-9; 600e-9]) (Arr1 [5000; 5500]) = false
  /\ py_pow sample_libm (PyInt N) (-2) = Ok (PyFloat 1)
  /\ np_coerce (PyInt N) = Ok (Arr0 1)
  /\ planck_law sample_libm (PyArr (Arr1 [400e-9; 500e-9; 600e-9]))
       (PyArr (Arr1 [5000; 5500])) (PyFloat C1) (PyFloat C2) (PyInt N)
     = Raise ValueError.
Proof.
  repeat (split; [reflexivity|]).
  exact (planck_law_shape_mismatch_raises sample_libm
           (PyArr (Arr1 [400e-9; 500e-9; 600e-9])) (PyArr (Arr1 [5000; 5500]))
           (Arr1 [400e-9; 500e-9; 600e-9]) (Arr1 [5000; 5500]) C1 C2 (PyInt N) 1 1
           eq_refl eq_refl eq_refl eq_refl eq_refl).
Defined.

Lemma planck_law_stretches_witness :
  py_pow sample_libm (PyInt N) (-2) = Ok (PyFloat 1)
  /\ np_coerce (PyInt N) = Ok (Arr0 1)
  /\ planck_law sample_libm (PyArr (Arr1 [500e-9])) (PyArr (Arr1 [5000; 5500; 6000]))
       (PyFloat C1) (PyFloat C2) (PyInt N)
     = Ok (PyArr (Arr1 [radiance sample_libm C1 C2 1 1 500e-9 5000;
                        radiance sample_libm C1 C2 1 1 500e-9 5500;
                        radiance sample_libm C1 C2 1 1 500e-9 6000])).
Proof.
  split; [reflexivity|]. split; [reflexivity|].
  exact (proj1 (planck_law_stretches sample_libm C1 C2 (PyInt N) 1 1
                  eq_refl eq_refl)
           500e-9 [5000; 5500; 6000]).
Defined.

Lemma planck_law_underflow_witness :
  (0 <? 500e-9) = true
  /\ (0 <? 10) = true
  /\ (710 <=? C2 / (500e-9 * 10)) = true
  /\ exists p,
       planck_law sample_libm (PyFloat 500e-9) (PyFloat 10)
         (PyFloat C1) (PyFloat C2) (PyInt N) = Ok (PyArr (Arr0 p))
       /\ (p = 0 \/ p = nan).
Proof.
  repeat (split; [reflexivity|]).
  exact (planck_law_underflow sample_libm 500e-9 10 eq_refl eq_refl eq_refl).
Defined.

Lemma planck_law_at_zero_temperature_witness :
  (0 <? 500e-9) = true
  /\ is_infinity 500e-9 = false
  /\ exists p,
       planck_law sample_libm (PyFloat 500e-9) (PyFloat 0)
         (PyFloat C1) (PyFloat C2) (PyInt N) = Ok (PyArr (Arr0 p))
       /\ (p = 0 \/ p = nan).
Proof.
  repeat (split; [reflexivity|]).
  exact (planck_law_at_zero_temperature sample_libm 500e-9 eq_refl eq_refl).
Defined.

Lemma sd_blackbody_zero_index_raises_witness :
  as_float_array (PyInt 5000) = Ok (Arr0 5000)
  /\ sd_blackbody sample_libm sample_range sample_str sample_array_str
       (PyInt 5000) [] (PyFloat C1) (PyFloat C2) (PyInt 0)
     = Raise ZeroDivisionError.
Proof.
  split; [reflexivity|].
  exact (sd_blackbody_zero_index_raises sample_libm sample_range sample_str
           sample_array_str (PyInt 5000) [] (PyFloat C1) (PyFloat C2) (PyInt 0)
           (Arr0 5000) eq_refl (or_introl eq_refl)).
Defined.

Lemma sd_blackbody_temperature_mismatch_raises_witness :
  broadcastable (Arr1 (sample_range [360; 361; 830])) (Arr1 [5000; 5500]) = false
  /\ py_pow sample_libm (PyInt N) (-2) = Ok (PyFloat 1)
  /\ np_coerce (PyInt N) = Ok (Arr0 1)
  /\ sd_blackbody sample_libm sample_range sample_str sample_array_str
       (PyArr (Arr1 [5000; 5500])) [360; 361; 830] (PyFloat C1) (PyFloat C2) (PyInt N)
     = Raise ValueError.
Proof.
  repeat (split; [reflexivity|]).
  exact (sd_blackbody_temperature_mismatch_raises sample_libm sample_range
           sample_str sample_array_str [360; 361; 830] [5000; 5500] C1 C2 (PyInt N) 1 1
           eq_refl eq_refl eq_refl).
Defined.

Lemma sd_blackbody_keys_witness :
  as_float_array (PyInt 5000) = Ok (Arr0 5000)
  /\ py_pow sample_libm (PyInt N) (-2) = Ok (PyFloat 1)
  /\ np_coerce (PyInt N) = Ok (Arr0 1)
  /\ exists sd,
       sd_blackbody sample_libm sample_range sample_str sample_array_str
         (PyInt 5000) [830; 360; 830] (PyFloat C1) (PyFloat C2) (PyInt N) = Ok sd
       /\ distinct_keys (sd_data sd)
       /\ (List.length (sd_data sd) <= List.length (sample_range [830; 360; 830]%float))%nat
       /\ forall k v, In (k, v) (sd_data sd) ->
            In k (sample_range [830; 360; 830])
            /\ exists w, In w (sample_range [830; 360; 830])
                         /\ v = radiance sample_libm C1 C2 1 1 (w * 1e-9) 5000.
Proof.
  repeat (split; [reflexivity|]).
  exact (sd_blackbody_keys sample_libm sample_range sample_str sample_array_str
           (PyInt 5000) [830; 360; 830] C1 C2 (PyInt N) 5000 1 1
           eq_refl eq_refl eq_refl).
Defined.

Lemma sd_blackbody_not_negative_witness :
  as_float_array (PyInt 5000) = Ok (Arr0 5000)
  /\ sign_clear 5000 = true
  /\ Forall (fun w => sign_clear w = true) (sample_range [360; 830])
  /\ exists sd,
       sd_blackbody sample_libm sample_range sample_str sample_array_str
         (PyInt 5000) [360; 830] (PyFloat C1) (PyFloat C2) (PyInt N) = Ok sd
       /\ forall k v, In (k, v) (sd_data sd) -> (v <? 0) = false.
Proof.
  assert (F : Forall (fun w => sign_clear w = true) (sample_range [360; 830]))
    by (repeat constructor).
  repeat (split; [reflexivity|]). split; [exact F|].
  exact (sd_blackbody_not_negative sample_libm sample_range sample_str
           sample_array_str (PyInt 5000) [360; 830] 5000 eq_refl eq_refl F).
Defined.

Lemma planck_law_500nm_5500K_witness :
  accurate (c_exp sample_libm (C2 / (1 * 500e-9 * 5500))%float)
    (exp (F2R (C2 / (1 * 500e-9 * 5500))%float))
  /\ accurate (c_pow sample_libm 500e-9%float (-5)%float) (/ F2R 500e-9%float ^ 5)
  /\ accurate
       (c_pow sample_libm (c_exp sample_libm (C2 / (1 * 500e-9 * 5500)) - 1)%float (-1)%float)
       (/ F2R (c_exp sample_libm (C2 / (1 * 500e-9 * 5500)) - 1)%float)
  /\ exists p,
       planck_law sample_libm (PyFloat 500e-9%float) (PyFloat 5500%float)
         (PyFloat C1) (PyFloat C2) (PyInt N) = Ok (PyArr (Arr0 p))
       /\ (abs (p - 2.04727019e13) <=? 1e-6 * 2.04727019e13)%float = true.
Proof.
  split; [exact sample_exp_accurate|].
  split; [exact sample_pow5_accurate|].
  split; [exact sample_recip_accurate|].
  exact (planck_law_500nm_5500K sample_libm
           sample_exp_accurate sample_pow5_accurate sample_recip_accurate).
Defined.

(** * The module run with the small C library *)

(** The example of the docstring of [planck_law]:
    [planck_law(500 * 1e-9, 5500)] is [20472701909806.5...]. *)
Example planck_law_docstring :
  planck_law sample_libm (PyFloat (500 * 1e-9)) (PyInt 5500)
    (PyFloat C1) (PyFloat C2) (PyInt N)
  = Ok (PyArr (Arr0 20472701909806.574)).
Proof. vm_compute. reflexivity. Qed.

(** The first and the last line of the docstring of [sd_blackbody]:
    [6.65427827e+12] at 360 nm and [9.74123205e+12] at 830 nm, for 5000 K. *)
Example sd_blackbody_docstring :
  sd_blackbody sample_libm sample_range sample_str sample_array_str
    (PyInt 5000) [360; 830] (PyFloat C1) (PyFloat C2) (PyInt N)
  = Ok (SpectralDistribution_init
          [(360, 6654278270641.8164); (830, 9741232052709.1094)]
          "5000K Blackbody").
Proof. vm_compute. reflexivity. Qed.

(** A zero wavelength gives a NaN, a zero temperature gives zero. *)
Example planck_law_zero_wavelength :
  planck_law sample_libm (PyFloat 0) (PyFloat 5500)
    (PyFloat C1) (PyFloat C2) (PyInt N)
  = Ok (PyArr (Arr0 nan)).
Proof. vm_compute. reflexivity. Qed.

Example planck_law_zero_temperature :
  planck_law sample_libm (PyFloat 500e-9) (PyFloat 0)
    (PyFloat C1) (PyFloat C2) (PyInt N)
  = Ok (PyArr (Arr0 0)).
Proof. vm_compute. reflexivity. Qed.

(** Arrays of three and of two elements cannot be broadcast together. *)
Example planck_law_shape_mismatch :
  planck_law sample_libm (PyArr (Arr1 [400e-9; 500e-9; 600e-9]))
    (PyArr (Arr1 [5000; 5500])) (PyFloat C1) (PyFloat C2) (PyInt N)
  = Raise ValueError.
Proof. vm_compute. reflexivity. Qed.

(** Python's arithmetic on scalars. *)
Example py_truediv_ints :
  py_truediv (PyInt (2 ^ 70 + 12345)) (PyInt 7) = Ok (PyFloat 1.6865594581677303e+20)
  /\ py_truediv (PyInt 1) (PyInt 0) = Raise ZeroDivisionError
  /\ py_truediv (PyFloat 1) (PyFloat 0) = Raise ZeroDivisionError.
Proof. repeat split; vm_compute; reflexivity. Qed.

Example py_pow_scalars :
  py_pow sample_libm (PyInt 2) 10 = Ok (PyInt 1024)
  /\ py_pow sample_libm (PyInt (-3)) (-3) = Ok (PyFloat (-0.037037037037037035))
  /\ py_pow sample_libm (PyFloat 1e-200) (-2) = Raise OverflowError
  /\ py_pow sample_libm (PyFloat infinity) (-2) = Ok (PyFloat 0).
Proof. repeat split; vm_compute; reflexivity. Qed.

(** The value at 500 nm and 5500 K with the small C library: within the
    relative tolerance [1e-6] of [2.04727019e13]. *)
Example planck_law_500nm_5500K_binary64 :
  exists p,
    planck_law sample_libm (PyFloat 500e-9) (PyInt 5500)
      (PyFloat C1) (PyFloat C2) (PyInt N) = Ok (PyArr (Arr0 p))
    /\ (abs (p - 2.04727019e13) <=? 1e-6 * 2.04727019e13) = true.
Proof. eexists. split; vm_compute; reflexivity. Qed.
